(** * Student records (TestFiles/Code/cls.py)

    A shallow embedding of the console student-record program: the
    [Student] class with its validating constructor, the module-level list
    [students], and the menu operations that add, update, delete, view and
    list records.

    Conventions of the embedding.
    - Python values that reach the dynamic checks of the constructor are
      values of [pyval]; a Python [float] is an IEEE-754 binary64 number,
      represented by [spec_float] with precision 53 and maximal exponent 1024.
    - An exception is a value of [exn]; code that may raise returns a
      [result].
    - The console procedures run in the monad [M]: they thread the program
      state, accumulate the lines written by [print] and may end with an
      uncaught exception.  What [input] returns (after [int] or [float]
      parsing where the source parses) is an argument of the procedure.
    - Every object carries its identity ([Student.oid]); Python compares
      [Student] objects by identity since the class defines no [__eq__]. *)

From Stdlib Require Import ZArith List String Ascii Bool Lia.
From Stdlib Require Import Floats.SpecFloat.
Import ListNotations.

Local Open Scope string_scope.
Local Open Scope list_scope.
Local Open Scope Z_scope.

(** ** Exceptions and results *)

Inductive exn : Type :=
| ValueError (msg : string)
| TypeError (msg : string)
| ZeroDivisionError (msg : string)
| OverflowError (msg : string).

Inductive result (A : Type) : Type :=
| Ok (a : A)
| Raise (e : exn).

Arguments Ok {A} a.
Arguments Raise {A} e.

Definition rbind {A B : Type} (r : result A) (k : A -> result B) : result B :=
  match r with
  | Ok a => k a
  | Raise e => Raise e
  end.

Declare Scope result_scope.
Delimit Scope result_scope with result.
Notation "x <- r ;; k" := (rbind r (fun x => k))
  (at level 61, r at next level, right associativity) : result_scope.

(** ** Python values *)

Module Py.

Definition prec : Z := 53.
Definition emax : Z := 1024.

Definition float : Type := spec_float.

Inductive pyval : Type :=
| PyNone
| PyBool (b : bool)
| PyInt (z : Z)
| PyFloat (f : float)
| PyStr (s : string).

(** [isinstance(v, int)]: [bool] is a subclass of [int]. *)
Definition isinstance_int (v : pyval) : bool :=
  match v with
  | PyBool _ | PyInt _ => true
  | _ => false
  end.

(** [isinstance(v, (int, float))]. *)
Definition isinstance_int_float (v : pyval) : bool :=
  match v with
  | PyBool _ | PyInt _ | PyFloat _ => true
  | _ => false
  end.

(** The value of an [int] object ([True] is 1, [False] is 0). *)
Definition as_int (v : pyval) : option Z :=
  match v with
  | PyBool b => Some (Z.b2z b)
  | PyInt z => Some z
  | _ => None
  end.

(** The name of the type of a value, as error messages show it. *)
Definition type_name (v : pyval) : string :=
  match v with
  | PyNone => "NoneType"
  | PyBool _ => "bool"
  | PyInt _ => "int"
  | PyFloat _ => "float"
  | PyStr _ => "str"
  end.

(** The [TypeError] of a comparison [a op b] between unordered types. *)
Definition not_supported (op : string) (a b : pyval) : exn :=
  TypeError ("'" ++ op ++ "' not supported between instances of '"
             ++ type_name a ++ "' and '" ++ type_name b ++ "'")%string.

(** The [TypeError] of an arithmetic operation [a op b] that the types of
    the operands do not define. *)
Definition unsupported_operands (op : string) (a b : pyval) : exn :=
  TypeError ("unsupported operand type(s) for " ++ op ++ ": '"
             ++ type_name a ++ "' and '" ++ type_name b ++ "'")%string.

(** The [TypeError] of [a + b] for a string [a] and a [b] that is not a
    string. *)
Definition cannot_concatenate (b : pyval) : exn :=
  TypeError ("can only concatenate str (not " ++ String "034"%char (type_name b)
             ++ String "034"%char ") to str")%string.

(** Exact comparison of an integer with a float, as Python compares an
    [int] with a [float]: [None] when the float is a NaN. *)
Definition Zcompare_float (z : Z) (f : float) : option comparison :=
  match f with
  | S754_nan => None
  | S754_infinity s => Some (if s then Gt else Lt)
  | S754_zero _ => Some (z ?= 0)
  | S754_finite s m e =>
      let v := cond_Zopp s (Zpos m) in
      Some (match e with
            | Zneg p => Z.shiftl z (Zpos p) ?= v
            | _ => z ?= Z.shiftl v e
            end)
  end.

(** Three-way comparison for the operator [op] of two numbers, or of two
    strings; [Raise] for operands that Python's [<] and [<=] do not
    support. *)
Definition compare (op : string) (a b : pyval) : result (option comparison) :=
  match as_int a, as_int b with
  | Some x, Some y => Ok (Some (x ?= y))
  | Some x, None =>
      match b with
      | PyFloat g => Ok (Zcompare_float x g)
      | _ => Raise (not_supported op a b)
      end
  | None, Some y =>
      match a with
      | PyFloat f => Ok (option_map CompOpp (Zcompare_float y f))
      | _ => Raise (not_supported op a b)
      end
  | None, None =>
      match a, b with
      | PyFloat f, PyFloat g => Ok (SFcompare f g)
      | PyStr s, PyStr t => Ok (Some (String.compare s t))
      | _, _ => Raise (not_supported op a b)
      end
  end.

(** [a <= b]. *)
Definition le (a b : pyval) : result bool :=
  (c <- compare "<=" a b ;;
   Ok match c with
      | Some Lt | Some Eq => true
      | _ => false
      end)%result.

(** [a < b]. *)
Definition lt (a b : pyval) : result bool :=
  (c <- compare "<" a b ;;
   Ok match c with
      | Some Lt => true
      | _ => false
      end)%result.

(** Conversion of an [int] to a [float]: rounded to nearest even,
    [OverflowError] when the integer is too large. *)
Definition float_of_int (z : Z) : result float :=
  match binary_normalize prec emax z 0 false with
  | S754_infinity _ => Raise (OverflowError "int too large to convert to float")
  | f => Ok f
  end.

Definition is_zero (f : float) : bool :=
  match f with
  | S754_zero _ => true
  | _ => false
  end.

(** [a + b]: addition of numbers and concatenation of strings. *)
Definition add (a b : pyval) : result pyval :=
  match as_int a, as_int b with
  | Some x, Some y => Ok (PyInt (x + y))
  | Some x, None =>
      match b with
      | PyFloat g => (f <- float_of_int x ;; Ok (PyFloat (SFadd prec emax f g)))%result
      | _ => Raise (unsupported_operands "+" a b)
      end
  | None, Some y =>
      match a with
      | PyFloat f => (g <- float_of_int y ;; Ok (PyFloat (SFadd prec emax f g)))%result
      | PyStr _ => Raise (cannot_concatenate b)
      | _ => Raise (unsupported_operands "+" a b)
      end
  | None, None =>
      match a, b with
      | PyFloat f, PyFloat g => Ok (PyFloat (SFadd prec emax f g))
      | PyStr s, PyStr t => Ok (PyStr (s ++ t))
      | PyStr _, _ => Raise (cannot_concatenate b)
      | _, _ => Raise (unsupported_operands "+" a b)
      end
  end.

(** [sum(l)]: the items are added from left to right, starting from the
    integer 0.  This is [sum] as CPython computes it before version 3.12;
    from 3.12 on it adds float items with a compensation of the rounding
    errors, [sum_compensated] below.  The two differ at most where some
    partial sum is inexact; the theorems that fix the value of an average
    are stated for grades whose partial sums are exact, where the two
    agree. *)
Fixpoint sum_from (acc : pyval) (l : list pyval) : result pyval :=
  match l with
  | [] => Ok acc
  | v :: l' => (acc' <- add acc v ;; sum_from acc' l')%result
  end.

Definition sum (l : list pyval) : result pyval := sum_from (PyInt 0) l.

(** The loop over float items in [sum] from CPython 3.12 on: [total] is
    the running sum and [c] the compensation, which is added at the end
    when it is finite and not zero. *)
Fixpoint sum_compensated_from (total c : float) (l : list float) : float :=
  match l with
  | [] =>
      match c with
      | S754_finite _ _ _ => SFadd prec emax total c
      | _ => total
      end
  | x :: l' =>
      let t := SFadd prec emax total x in
      let c' :=
        if SFleb (SFabs x) (SFabs total) then
          SFadd prec emax c (SFadd prec emax (SFsub prec emax total t) x)
        else
          SFadd prec emax c (SFadd prec emax (SFsub prec emax x t) total) in
      sum_compensated_from t c' l'
  end.

(** [sum(l)] for a list of floats from CPython 3.12 on: the first item is
    added to the integer 0, the others in the compensated loop. *)
Definition sum_compensated (l : list float) : pyval :=
  match l with
  | [] => PyInt 0
  | x :: l' =>
      PyFloat (sum_compensated_from (SFadd prec emax (S754_zero false) x)
                 (S754_zero false) l')
  end.

(** Division of two floats, [ZeroDivisionError] on a zero divisor. *)
Definition float_div (f g : float) : result pyval :=
  if is_zero g then Raise (ZeroDivisionError "float division by zero")
  else Ok (PyFloat (SFdiv prec emax f g)).

(** True division of two integers: the exact quotient rounded once. *)
Definition int_true_divide (x y : Z) : result pyval :=
  match x, y with
  | _, Z0 => Raise (ZeroDivisionError "division by zero")
  | Z0, _ => Ok (PyFloat (S754_zero (y <? 0)))
  | _, _ =>
      let sx := x <? 0 in
      let sy := y <? 0 in
      match SFdiv prec emax (S754_finite sx (Z.to_pos (Z.abs x)) 0)
                            (S754_finite sy (Z.to_pos (Z.abs y)) 0) with
      | S754_infinity _ =>
          Raise (OverflowError "integer division result too large for a float")
      | q => Ok (PyFloat q)
      end
  end.

(** [a / b] on numbers. *)
Definition truediv (a b : pyval) : result pyval :=
  match as_int a, as_int b with
  | Some x, Some y => int_true_divide x y
  | Some x, None =>
      match b with
      | PyFloat g => (f <- float_of_int x ;; float_div f g)%result
      | _ => Raise (unsupported_operands "/" a b)
      end
  | None, Some y =>
      match a with
      | PyFloat f => (g <- float_of_int y ;; float_div f g)%result
      | _ => Raise (unsupported_operands "/" a b)
      end
  | None, None =>
      match a, b with
      | PyFloat f, PyFloat g => float_div f g
      | _, _ => Raise (unsupported_operands "/" a b)
      end
  end.

(** [len(l)] as a Python integer. *)
Definition len {A : Type} (l : list A) : pyval := PyInt (Z.of_nat (List.length l)).

(** Truth value of a list: a list is true when it is not empty. *)
Definition list_truth {A : Type} (l : list A) : bool :=
  match l with
  | [] => false
  | _ :: _ => true
  end.

(** [all(f(x) for x in l)]: stops at the first false item. *)
Fixpoint all {A : Type} (f : A -> result bool) (l : list A) : result bool :=
  match l with
  | [] => Ok true
  | x :: l' => (b <- f x ;; if b then all f l' else Ok false)%result
  end.

(** The float denoted by an integer literal that a float represents
    exactly, such as [90.0]. *)
Definition float_lit (z : Z) : float := binary_normalize prec emax z 0 false.

End Py.

Import Py.

(** ** The console monad *)

(** A line written by [print].  The line of [Student.display] is kept
    structured: its text is determined by the four values it formats. *)
Inductive line : Type :=
| Text (s : string)
| Display (name : string) (age : pyval) (grades : list pyval) (average : pyval).

(** A procedure over a program state [S]: from a state it gives the lines
    printed, the state reached and either a value or the exception that
    escapes.  Lines and state changes made before an exception are kept. *)
Definition M (S A : Type) : Type := S -> list line * S * result A.

Definition ret {S A : Type} (a : A) : M S A := fun st => ([], st, Ok a).

Definition bind {S A B : Type} (m : M S A) (k : A -> M S B) : M S B :=
  fun st =>
    match m st with
    | (out, st1, Ok a) =>
        let '(out', st2, r) := k a st1 in (out ++ out', st2, r)
    | (out, st1, Raise e) => (out, st1, Raise e)
    end.

Definition lift {S A : Type} (r : result A) : M S A := fun st => ([], st, r).

Definition print {S : Type} (l : line) : M S unit := fun st => ([l], st, Ok tt).

Definition get {S : Type} : M S S := fun st => ([], st, Ok st).

(** [try: body except ValueError as ve: handler ve]. *)
Definition try_except_ValueError {S A : Type}
    (body : M S A) (handler : string -> M S A) : M S A :=
  fun st =>
    match body st with
    | (out, st1, Raise (ValueError ve)) =>
        let '(out', st2, r) := handler ve st1 in (out ++ out', st2, r)
    | other => other
    end.

Declare Scope console_scope.
Delimit Scope console_scope with console.
Notation "x <- m ;; k" := (bind m (fun x => k))
  (at level 61, m at next level, right associativity) : console_scope.
Notation "m ;; k" := (bind m (fun _ => k))
  (at level 61, right associativity) : console_scope.

(** ** The class [Student] *)

Module Student.

Record t : Type := mk {
  oid : nat;              (* identity of the object *)
  name : string;
  age : pyval;
  grades : list pyval
}.

(** [isinstance(g, (int, float)) and 0 <= g <= 100]. *)
Definition grade_ok (g : pyval) : result bool :=
  if isinstance_int_float g then
    (low <- Py.le (PyInt 0) g ;;
     if low then Py.le g (PyInt 100) else Ok false)%result
  else Ok false.

(** [not isinstance(age, int) or age <= 0]. *)
Definition age_bad (age : pyval) : result bool :=
  if negb (isinstance_int age) then Ok true else Py.le age (PyInt 0).

(** [__init__] on the object of identity [self]. *)
Definition init (self : nat) (name : string) (age : pyval)
    (grades : list pyval) : result t :=
  (bad <- age_bad age ;;
   if bad then Raise (ValueError "Age must be a positive integer.")
   else
     ok <- Py.all grade_ok grades ;;
     if negb ok then Raise (ValueError "Grades must be numbers between 0 and 100.")
     else Ok {| oid := self; name := name; age := age; grades := grades |})%result.

Definition average_grade (self : t) : result pyval :=
  if Py.list_truth (grades self) then
    (total <- Py.sum (grades self) ;;
     Py.truediv total (Py.len (grades self)))%result
  else Ok (PyInt 0).

Definition display {S : Type} (self : t) : M S unit :=
  (average <- lift (average_grade self) ;;
   print (Display (name self) (age self) (grades self) average))%console.

End Student.

(** ** The program state *)

(** The module-level list [students] and the identity of the next object
    to be created. *)
Record state : Type := mkState {
  students : list Student.t;
  next_oid : nat
}.

Definition initial : state := {| students := []; next_oid := 0 |}.

Definition set_students (l : list Student.t) (st : state) : state :=
  {| students := l; next_oid := next_oid st |}.

(** The call [Student(name, age, grades)]: a new object is created and
    initialised; when [__init__] raises, the object is unreachable and the
    state is as before. *)
Definition new_Student (name : string) (age : pyval) (grades : list pyval)
    : M state Student.t :=
  fun st =>
    match Student.init (next_oid st) name age grades with
    | Ok student =>
        ([], {| students := students st; next_oid := S (next_oid st) |}, Ok student)
    | Raise e => ([], st, Raise e)
    end.

(** [students.append(student)]. *)
Definition students_append (student : Student.t) : M state unit :=
  fun st => ([], set_students (students st ++ [student]) st, Ok tt).

(** Assignment to an attribute of the object [self]: every reference to
    the object sees the new value. *)
Definition update_object (self : Student.t) (f : Student.t -> Student.t)
    (l : list Student.t) : list Student.t :=
  map (fun x => if Nat.eqb (Student.oid x) (Student.oid self) then f x else x) l.

Definition with_age (v : pyval) (x : Student.t) : Student.t :=
  {| Student.oid := Student.oid x; Student.name := Student.name x;
     Student.age := v; Student.grades := Student.grades x |}.

Definition with_grades (v : list pyval) (x : Student.t) : Student.t :=
  {| Student.oid := Student.oid x; Student.name := Student.name x;
     Student.age := Student.age x; Student.grades := v |}.

(** [student.age = age]. *)
Definition set_age (student : Student.t) (age : pyval) : M state unit :=
  fun st =>
    ([], set_students (update_object student (with_age age) (students st)) st, Ok tt).

(** [student.grades = grades]. *)
Definition set_grades (student : Student.t) (grades : list pyval) : M state unit :=
  fun st =>
    ([], set_students (update_object student (with_grades grades) (students st)) st,
     Ok tt).

(** [l.remove(x)] for a list of [Student] objects: the first item that is
    the object [x] is removed. *)
Fixpoint remove_object (x : Student.t) (l : list Student.t)
    : option (list Student.t) :=
  match l with
  | [] => None
  | y :: l' =>
      if Nat.eqb (Student.oid y) (Student.oid x) then Some l'
      else option_map (cons y) (remove_object x l')
  end.

(** [students.remove(student)]. *)
Definition students_remove (student : Student.t) : M state unit :=
  fun st =>
    match remove_object student (students st) with
    | Some l => ([], set_students l st, Ok tt)
    | None => ([], st, Raise (ValueError "list.remove(x): x not in list"))
    end.

(** [for x in l: body x]. *)
Fixpoint for_each {S A : Type} (l : list A) (body : A -> M S unit) : M S unit :=
  match l with
  | [] => ret tt
  | x :: l' => (body x ;; for_each l' body)%console
  end.

(** ** The operations of the menu *)

Section Records.

(** [str.lower], the case folding that name lookup uses. *)
Variable lower : string -> string.

(** The loop of [find_student] over the list. *)
Fixpoint find_in (l : list Student.t) (name : string) : option Student.t :=
  match l with
  | [] => None
  | student :: l' =>
      if String.eqb (lower (Student.name student)) (lower name) then Some student
      else find_in l' name
  end.

(** [find_student(name)]: [None] is Python's [None]. *)
Definition find_student (name : string) : M state (option Student.t) :=
  (st <- get ;; ret (find_in (students st) name))%console.

(** [add_student()], where [name] is the text entered, [age_in] the outcome
    of [int(input(...))] and [grades_in] the outcome of
    [list(map(float, input(...).split()))]. *)
Definition add_student (name : string) (age_in : result Z)
    (grades_in : result (list float)) : M state unit :=
  try_except_ValueError
    (age <- lift age_in ;;
     grades <- lift grades_in ;;
     student <- new_Student name (PyInt age) (map PyFloat grades) ;;
     students_append student ;;
     print (Text ("Student '" ++ name ++ "' added.")))%console
    (fun ve => print (Text ("Error: " ++ ve))).

(** [update_student()]; the age and the grades are read only when the
    student is found. *)
Definition update_student (name : string) (age_in : result Z)
    (grades_in : result (list float)) : M state unit :=
  (found <- find_student name ;;
   match found with
   | Some student =>
       try_except_ValueError
         (age <- lift age_in ;;
          grades <- lift grades_in ;;
          set_age student (PyInt age) ;;
          set_grades student (map PyFloat grades) ;;
          print (Text ("Student '" ++ name ++ "' updated.")))
         (fun ve => print (Text ("Error: " ++ ve)))
   | None => print (Text "Student not found.")
   end)%console.

(** [delete_student()]. *)
Definition delete_student (name : string) : M state unit :=
  (found <- find_student name ;;
   match found with
   | Some student =>
       students_remove student ;;
       print (Text ("Student '" ++ name ++ "' deleted."))
   | None => print (Text "Student not found.")
   end)%console.

(** [view_student()]. *)
Definition view_student (name : string) : M state unit :=
  (found <- find_student name ;;
   match found with
   | Some student => Student.display student
   | None => print (Text "Student not found.")
   end)%console.

(** [list_students()]. *)
Definition list_students : M state unit :=
  (st <- get ;;
   if negb (Py.list_truth (students st)) then
     print (Text "No students in the system.")
   else for_each (students st) Student.display)%console.

(** One turn of the menu loop: the choice entered together with what the
    chosen operation reads.  Choice 6 ends the loop. *)
Inductive command : Type :=
| Choice1 (name : string) (age_in : result Z) (grades_in : result (list float))
| Choice2 (name : string) (age_in : result Z) (grades_in : result (list float))
| Choice3 (name : string)
| Choice4 (name : string)
| Choice5
| ChoiceOther.

Definition print_menu : M state unit :=
  (print (Text EmptyString) ;;
   print (Text "===== Student Records Menu =====") ;;
   print (Text "1. Add Student") ;;
   print (Text "2. Update Student") ;;
   print (Text "3. Delete Student") ;;
   print (Text "4. View Student") ;;
   print (Text "5. List All Students") ;;
   print (Text "6. Exit"))%console.

Definition run_choice (c : command) : M state unit :=
  match c with
  | Choice1 name age_in grades_in => add_student name age_in grades_in
  | Choice2 name age_in grades_in => update_student name age_in grades_in
  | Choice3 name => delete_student name
  | Choice4 name => view_student name
  | Choice5 => list_students
  | ChoiceOther => print (Text "Invalid choice. Please enter 1-6.")
  end.

(** [menu()] on the turns [cmds] followed by choice 6. *)
Fixpoint menu (cmds : list command) : M state unit :=
  match cmds with
  | [] => (print_menu ;; print (Text "Exiting..."))%console
  | c :: cmds' => (print_menu ;; run_choice c ;; menu cmds')%console
  end.

(** The state in which [menu] leaves the program on the turns [cmds],
    started with no student. *)
Definition state_after (cmds : list command) : state :=
  snd (fst (menu cmds initial)).

(** A name matches a record when both are equal after case folding. *)
Definition matches (name : string) (student : Student.t) : Prop :=
  lower (Student.name student) = lower name.

End Records.

(** ASCII case folding, [str.lower] on ASCII names. *)
Definition ascii_lower_char (c : ascii) : ascii :=
  let n := nat_of_ascii c in
  if andb (Nat.leb 65 n) (Nat.leb n 90) then ascii_of_nat (n + 32) else c.

Fixpoint ascii_lower (s : string) : string :=
  match s with
  | EmptyString => EmptyString
  | String c s' => String (ascii_lower_char c) (ascii_lower s')
  end.


(** ** The invariant of a record, in the words of the specification *)

(** The age is an integer greater than 0. *)
Definition age_valid (age : pyval) : Prop :=
  exists z, as_int age = Some z /\ 0 < z.

(** A score [v] satisfies [0 <= v <= 100]. *)
Definition score_valid (v : pyval) : Prop :=
  Py.le (PyInt 0) v = Ok true /\ Py.le v (PyInt 100) = Ok true.

Definition record_valid (student : Student.t) : Prop :=
  age_valid (Student.age student) /\
  Forall score_valid (Student.grades student).

(** A score [v] with [v < 0] or [v > 100]. *)
Definition score_out_of_range (v : pyval) : Prop :=
  Py.lt v (PyInt 0) = Ok true \/ Py.lt (PyInt 100) v = Ok true.

(** The objects of the list are pairwise distinct. *)
Definition distinct_objects (st : state) : Prop :=
  NoDup (map Student.oid (students st)).

(** The state is well formed: the objects of the list are distinct and
    older than the next object to be created. *)
Definition store_wf (st : state) : Prop :=
  NoDup (map Student.oid (students st)) /\
  Forall (fun s => (Student.oid s < next_oid st)%nat) (students st).

(** The turns that choose the update operation. *)
Definition is_update (c : command) : bool :=
  match c with
  | Choice2 _ _ _ => true
  | _ => false
  end.

(** ** A concrete session *)

Definition ann : Student.t :=
  Student.mk 0 "Ann" (PyInt 20) [PyFloat (float_lit 90); PyFloat (float_lit 80)].

Definition bob : Student.t :=
  Student.mk 1 "Bob" (PyInt 31) [PyFloat (float_lit 70)].

(** The state after Ann has been added to the empty list. *)
Definition store_ann : state := {| students := [ann]; next_oid := 1 |}.

(** The state after Ann and then Bob have been added. *)
Definition store_ann_bob : state := {| students := [ann; bob]; next_oid := 2 |}.

(** ** What is entered at the console *)

(** The outcome of [int(...)] or [float(...)] on entered text: a value or
    a [ValueError]. *)
Definition parse_outcome {A : Type} (r : result A) : bool :=
  match r with
  | Ok _ | Raise (ValueError _) => true
  | Raise _ => false
  end.

(** The grades entered: as [parse_outcome], and fewer than 2^53 of them. *)
Definition grades_outcome (grades_in : result (list float)) : bool :=
  match grades_in with
  | Ok fs => Z.of_nat (List.length fs) <? 2 ^ 53
  | Raise (ValueError _) => true
  | Raise _ => false
  end.

(** A turn of the menu whose entries are such outcomes. *)
Definition entered_ok (c : command) : bool :=
  match c with
  | Choice1 _ age_in grades_in | Choice2 _ age_in grades_in =>
      parse_outcome age_in && grades_outcome grades_in
  | _ => true
  end.

(** Grades as [add_student] and [update_student] store them: a list of
    floats, fewer than 2^53 of them. *)
Definition float_graded (s : Student.t) : Prop :=
  exists fs, Student.grades s = map PyFloat fs /\ Z.of_nat (List.length fs) < 2 ^ 53.

(** The state after one turn of the menu. *)
Definition turn (lower : string -> string) (st : state) (c : command) : state :=
  snd (fst (run_choice lower c st)).

(** Closes a goal about concrete values by evaluation. *)
Ltac by_evaluation := vm_compute; first [reflexivity | discriminate | tauto].

(** Closes [NoDup] of a concrete list of identities. *)
Ltac distinct_by_evaluation :=
  cbv [distinct_objects]; cbn;
  repeat (constructor; [cbn; intuition discriminate|]); constructor.

(** Closes [Forall] of inequalities between concrete names. *)
Ltac no_match_by_evaluation :=
  cbn; repeat (constructor; [vm_compute; discriminate|]); constructor.

(** * Properties *)

(** ** The constructor *)

Lemma compare_int_l (op : string) (a b : pyval) :
  isinstance_int a = true -> isinstance_int_float b = true ->
  exists c, Py.compare op a b = Ok c.
Proof.
  destruct a; try discriminate; destruct b; try discriminate; intros _ _;
    cbn; eauto.
Qed.

Lemma compare_int_r (op : string) (a b : pyval) :
  isinstance_int_float a = true -> isinstance_int b = true ->
  exists c, Py.compare op a b = Ok c.
Proof.
  destruct a; try discriminate; destruct b; try discriminate; intros _ _;
    cbn; eauto.
Qed.

Lemma age_bad_total (age : pyval) : exists b, Student.age_bad age = Ok b.
Proof.
  unfold Student.age_bad.
  destruct (isinstance_int age) eqn:E; cbn; [|eauto].
  destruct (compare_int_l "<=" age (PyInt 0) E eq_refl) as [c Hc].
  unfold Py.le. rewrite Hc. cbn. eauto.
Qed.

Lemma grade_ok_total (g : pyval) : exists b, Student.grade_ok g = Ok b.
Proof.
  unfold Student.grade_ok.
  destruct (isinstance_int_float g) eqn:E; [|eauto].
  destruct (compare_int_l "<=" (PyInt 0) g eq_refl E) as [c Hc].
  destruct (compare_int_r "<=" g (PyInt 100) E eq_refl) as [d Hd].
  unfold Py.le. rewrite Hc, Hd. cbn.
  destruct c as [[| |]|]; eauto.
Qed.

Lemma all_grade_ok_total (grades : list pyval) :
  exists b, Py.all Student.grade_ok grades = Ok b.
Proof.
  induction grades as [|g grades IH]; cbn; [eauto|].
  destruct (grade_ok_total g) as [b ->]. cbn.
  destruct b; eauto.
Qed.

Lemma all_true_iff {A : Type} (f : A -> result bool) (l : list A) :
  Py.all f l = Ok true <-> Forall (fun x => f x = Ok true) l.
Proof.
  induction l as [|x l IH]; cbn.
  - split; auto.
  - split.
    + destruct (f x) as [[|]|] eqn:E; cbn; try discriminate.
      intros H. constructor; [assumption | now apply IH].
    + intros H. inversion H as [|? ? Hx Hl]; subst.
      rewrite Hx. cbn. now apply IH.
Qed.

(** The three ways in which [__init__] ends. *)
Lemma init_cases (self : nat) (name : string) (age : pyval) (grades : list pyval) :
  (Student.age_bad age = Ok true /\
   Student.init self name age grades =
     Raise (ValueError "Age must be a positive integer.")) \/
  (Student.age_bad age = Ok false /\
   Py.all Student.grade_ok grades = Ok false /\
   Student.init self name age grades =
     Raise (ValueError "Grades must be numbers between 0 and 100.")) \/
  (Student.age_bad age = Ok false /\
   Py.all Student.grade_ok grades = Ok true /\
   Student.init self name age grades = Ok (Student.mk self name age grades)).
Proof.
  unfold Student.init.
  destruct (age_bad_total age) as [[|] Ha]; rewrite Ha; cbn; [now left|].
  destruct (all_grade_ok_total grades) as [[|] Hg]; rewrite Hg; cbn.
  - right; right. auto.
  - right; left. auto.
Qed.

Lemma age_bad_int (z : Z) : Student.age_bad (PyInt z) = Ok (z <=? 0).
Proof.
  unfold Student.age_bad, Py.le. cbn. unfold Z.leb.
  destruct (z ?= 0); reflexivity.
Qed.

Lemma age_bad_not_int (age : pyval) :
  isinstance_int age = false -> Student.age_bad age = Ok true.
Proof. unfold Student.age_bad. now intros ->. Qed.

Lemma SFcompare_antisym (f g : float) :
  SFcompare g f = option_map CompOpp (SFcompare f g).
Proof.
  destruct f as [s|s| |s m e], g as [s'|s'| |s' m' e']; cbn;
    try reflexivity;
    try (destruct s; reflexivity);
    try (destruct s'; reflexivity);
    try (destruct s, s'; reflexivity).
  destruct s, s'; cbn; try reflexivity;
    rewrite (Z.compare_antisym e' e);
    destruct (e' ?= e); cbn; try reflexivity;
    rewrite (Pos.compare_cont_antisym m m' Eq); cbn;
    now rewrite ?CompOpp_involutive.
Qed.

(** Swapping the operands of a comparison reverses its outcome. *)
Lemma compare_antisym (op op' : string) (a b : pyval) (c : option comparison) :
  Py.compare op a b = Ok c -> Py.compare op' b a = Ok (option_map CompOpp c).
Proof.
  unfold Py.compare.
  destruct (as_int a) as [x|] eqn:Ea, (as_int b) as [y|] eqn:Eb.
  - intros [= <-]. cbn. now rewrite (Z.compare_antisym x y).
  - destruct b; try discriminate. now intros [= <-].
  - destruct a; try discriminate. intros [= <-].
    destruct (Zcompare_float y f) as [[| |]|]; reflexivity.
  - destruct a; try discriminate; destruct b; try discriminate.
    + intros [= <-]. now rewrite (SFcompare_antisym f f0).
    + intros [= <-]. cbn. now rewrite (String.compare_antisym s0 s).
Qed.

Lemma lt_not_le (a b : pyval) : Py.lt a b = Ok true -> Py.le b a = Ok false.
Proof.
  unfold Py.lt, Py.le.
  destruct (Py.compare "<" a b) as [c|] eqn:E; cbn; [|discriminate].
  rewrite (compare_antisym "<" "<=" a b c E). cbn.
  destruct c as [[| |]|]; cbn; try discriminate; reflexivity.
Qed.

Lemma le_total_num (a b : pyval) :
  isinstance_int_float a = true -> isinstance_int_float b = true ->
  exists r, Py.le a b = Ok r.
Proof.
  unfold Py.le.
  destruct a; try discriminate; destruct b; try discriminate; intros _ _;
    cbn; eauto.
Qed.

(** A score below 0 or above 100 fails the check of the constructor. *)
Lemma grade_ok_out_of_range (v : pyval) :
  score_out_of_range v -> Student.grade_ok v = Ok false.
Proof.
  unfold score_out_of_range, Student.grade_ok.
  destruct (isinstance_int_float v) eqn:E; [|reflexivity].
  intros [H|H]; apply lt_not_le in H; rewrite H; cbn; [reflexivity|].
  destruct (le_total_num (PyInt 0) v eq_refl E) as [[|] ->]; reflexivity.
Qed.

Lemma grade_ok_not_number (v : pyval) :
  isinstance_int_float v = false -> Student.grade_ok v = Ok false.
Proof. unfold Student.grade_ok. now intros ->. Qed.

Lemma all_false_of_In {A : Type} (f : A -> result bool) (l : list A) (x : A) :
  (forall y, exists b, f y = Ok b) ->
  In x l -> f x = Ok false -> Py.all f l = Ok false.
Proof.
  intros Htot. induction l as [|y l IH]; cbn; [tauto|].
  intros [->|Hin] Hx.
  - now rewrite Hx.
  - destruct (Htot y) as [[|] ->]; cbn; auto.
Qed.

(** ** Lookup by name *)

Section Lookup.

Variable lower : string -> string.

Lemma find_in_Some (l : list Student.t) (name : string) (s : Student.t) :
  find_in lower l name = Some s ->
  exists before after,
    l = before ++ s :: after /\
    matches lower name s /\
    Forall (fun x => ~ matches lower name x) before.
Proof.
  induction l as [|x l IH]; cbn; [discriminate|].
  destruct (String.eqb_spec (lower (Student.name x)) (lower name)) as [E|E].
  - intros [= <-]. exists [], l. repeat split; auto.
  - intros H. destruct (IH H) as (before & after & -> & Hm & Hb).
    exists (x :: before), after. repeat split; auto.
Qed.

Lemma find_in_None (l : list Student.t) (name : string) :
  find_in lower l name = None <-> Forall (fun x => ~ matches lower name x) l.
Proof.
  induction l as [|x l IH]; cbn.
  - split; auto.
  - destruct (String.eqb_spec (lower (Student.name x)) (lower name)) as [E|E].
    + split; [discriminate|]. intros H. inversion H; subst. contradiction.
    + rewrite IH. split.
      * intros H. constructor; assumption.
      * intros H. now inversion H.
Qed.

Lemma find_in_Exists (l : list Student.t) (name : string) :
  Exists (matches lower name) l -> exists s, find_in lower l name = Some s.
Proof.
  intros H. destruct (find_in lower l name) as [s|] eqn:E; [eauto|].
  apply find_in_None in E. apply Exists_exists in H as (x & Hin & Hx).
  rewrite Forall_forall in E. now destruct (E x Hin).
Qed.

Lemma find_student_run (name : string) (st : state) :
  find_student lower name st = ([], st, Ok (find_in lower (students st) name)).
Proof. reflexivity. Qed.

(** C5.  [find_student] leaves the state as it is, prints nothing and
    returns the first record, in the order of the list, whose name equals
    the given name after case folding: every record before it fails to
    match, so among several matching records the earliest is returned.
    When no record matches it returns [None]. *)
Theorem find_student_first_match (name : string) (st : state) :
  exists found,
    find_student lower name st = ([], st, Ok found) /\
    match found with
    | Some s =>
        exists before after,
          students st = before ++ s :: after /\
          lower (Student.name s) = lower name /\
          Forall (fun x => lower (Student.name x) <> lower name) before
    | None =>
        Forall (fun x => lower (Student.name x) <> lower name) (students st)
    end.
Proof.
  exists (find_in lower (students st) name). split; [reflexivity|].
  destruct (find_in lower (students st) name) as [s|] eqn:E.
  - exact (find_in_Some _ _ _ E).
  - now apply find_in_None.
Qed.

(** C9.  When no record of the list matches the name, [find_student]
    returns [None], and [update_student], [delete_student] and
    [view_student] print "Student not found." whatever else is entered;
    none of them changes the state. *)
Theorem no_match_not_found (name : string) (st : state) :
  Forall (fun x => lower (Student.name x) <> lower name) (students st) ->
  find_student lower name st = ([], st, Ok None) /\
  (forall age_in grades_in,
      update_student lower name age_in grades_in st =
        ([Text "Student not found."], st, Ok tt)) /\
  delete_student lower name st = ([Text "Student not found."], st, Ok tt) /\
  view_student lower name st = ([Text "Student not found."], st, Ok tt).
Proof.
  intros H. apply find_in_None in H.
  unfold update_student, delete_student, view_student, bind.
  rewrite find_student_run, H. repeat split; reflexivity.
Qed.

End Lookup.

(** ** Objects of the list *)

Lemma distinct_split (before after : list Student.t) (s : Student.t) :
  NoDup (map Student.oid (before ++ s :: after)) ->
  Forall (fun x => Student.oid x <> Student.oid s) before /\
  Forall (fun x => Student.oid x <> Student.oid s) after.
Proof.
  rewrite map_app. cbn. intros H.
  pose proof (NoDup_remove_2 _ _ _ H) as Hnot.
  split; apply Forall_forall; intros x Hx E; apply Hnot, in_or_app;
    [left|right]; rewrite <- E; now apply in_map.
Qed.

Lemma update_object_split (self x : Student.t) (f : Student.t -> Student.t)
    (before after : list Student.t) :
  Student.oid x = Student.oid self ->
  Forall (fun y => Student.oid y <> Student.oid self) before ->
  Forall (fun y => Student.oid y <> Student.oid self) after ->
  update_object self f (before ++ x :: after) = before ++ f x :: after.
Proof.
  intros Hx Hb Ha. unfold update_object.
  assert (Hid : forall l, Forall (fun y => Student.oid y <> Student.oid self) l ->
            map (fun y => if Nat.eqb (Student.oid y) (Student.oid self)
                          then f y else y) l = l).
  { induction 1 as [|y l Hy _ IH]; cbn; [reflexivity|].
    apply Nat.eqb_neq in Hy. now rewrite Hy, IH. }
  rewrite map_app. cbn. rewrite (Hid _ Hb), (Hid _ Ha).
  apply Nat.eqb_eq in Hx. now rewrite Hx.
Qed.

Lemma remove_object_split (s : Student.t) (before after : list Student.t) :
  Forall (fun y => Student.oid y <> Student.oid s) before ->
  remove_object s (before ++ s :: after) = Some (before ++ after).
Proof.
  induction 1 as [|y l Hy _ IH]; cbn.
  - now rewrite Nat.eqb_refl.
  - apply Nat.eqb_neq in Hy. now rewrite Hy, IH.
Qed.

Lemma not_In_of_distinct (l : list Student.t) (s : Student.t) :
  Forall (fun y => Student.oid y <> Student.oid s) l -> ~ In s l.
Proof.
  intros H Hin. rewrite Forall_forall in H. now apply (H s Hin).
Qed.

Section Mutation.

Variable lower : string -> string.

#[local] Arguments update_object : simpl never.

(** C4.  In a list of distinct objects with a record matching the name,
    an update whose age and grades are read successfully changes the first
    matching record only: the list after the update has the same records
    before and after it, and in its place the record with the same identity
    and name and with the new age and grades. *)
Theorem update_student_in_place (name : string) (st : state) :
  distinct_objects st ->
  Exists (fun x => lower (Student.name x) = lower name) (students st) ->
  exists before s after,
    students st = before ++ s :: after /\
    lower (Student.name s) = lower name /\
    Forall (fun x => lower (Student.name x) <> lower name) before /\
    forall (age : Z) (grades : list float),
      update_student lower name (Ok age) (Ok grades) st =
        ([Text ("Student '" ++ name ++ "' updated.")],
         set_students
           (before ++
            Student.mk (Student.oid s) (Student.name s) (PyInt age)
              (map PyFloat grades) :: after) st,
         Ok tt).
Proof.
  intros Hd Hex.
  destruct (find_in_Exists lower _ _ Hex) as [s Hs].
  destruct (find_in_Some lower _ _ _ Hs) as (before & after & Hl & Hm & Hb).
  exists before, s, after. repeat split; try assumption.
  intros age grades.
  unfold distinct_objects in Hd. rewrite Hl in Hd.
  destruct (distinct_split _ _ _ Hd) as [Hob Hoa].
  unfold update_student, bind. rewrite find_student_run, Hs.
  unfold try_except_ValueError, bind, lift, set_age, set_grades, print.
  cbn. rewrite Hl.
  rewrite (update_object_split s s _ before after eq_refl Hob Hoa).
  rewrite (update_object_split s (with_age (PyInt age) s) _ before after
             eq_refl Hob Hoa).
  reflexivity.
Qed.

(** C6.  In a list of distinct objects with a record matching the name,
    [delete_student] removes the first matching record and keeps the others
    in their order; the removed record is no longer in the list, and when
    no later record matches the name a lookup of the name then finds
    nothing. *)
Theorem delete_student_removes_first_match (name : string) (st : state) :
  distinct_objects st ->
  Exists (fun x => lower (Student.name x) = lower name) (students st) ->
  exists before s after,
    students st = before ++ s :: after /\
    lower (Student.name s) = lower name /\
    Forall (fun x => lower (Student.name x) <> lower name) before /\
    delete_student lower name st =
      ([Text ("Student '" ++ name ++ "' deleted.")],
       set_students (before ++ after) st, Ok tt) /\
    ~ In s (before ++ after) /\
    (Forall (fun x => lower (Student.name x) <> lower name) after ->
     find_student lower name (set_students (before ++ after) st) =
       ([], set_students (before ++ after) st, Ok None)).
Proof.
  intros Hd Hex.
  destruct (find_in_Exists lower _ _ Hex) as [s Hs].
  destruct (find_in_Some lower _ _ _ Hs) as (before & after & Hl & Hm & Hb).
  exists before, s, after.
  unfold distinct_objects in Hd. rewrite Hl in Hd.
  destruct (distinct_split _ _ _ Hd) as [Hob Hoa].
  repeat split; try assumption.
  - unfold delete_student, bind. rewrite find_student_run, Hs.
    unfold students_remove, print.
    rewrite Hl, (remove_object_split s before after Hob). reflexivity.
  - apply not_In_of_distinct, Forall_app. now split.
  - intros Ha. rewrite find_student_run. cbn.
    replace (find_in lower (before ++ after) name) with (@None Student.t);
      [reflexivity|].
    symmetry. apply find_in_None, Forall_app. now split.
Qed.

End Mutation.

(** ** Validation and the invariant *)

Lemma le_int (a b : Z) : Py.le (PyInt a) (PyInt b) = Ok (a <=? b).
Proof.
  unfold Py.le, Py.compare, Z.leb. cbn [as_int rbind].
  destruct (a ?= b); reflexivity.
Qed.

(** The constructor accepts an age exactly when it is a positive integer. *)
Lemma age_bad_false_iff (age : pyval) :
  Student.age_bad age = Ok false <-> age_valid age.
Proof.
  unfold Student.age_bad, age_valid.
  destruct age as [|b|z|f|s]; cbn [isinstance_int negb as_int].
  - split; [discriminate|]. intros (z & [=] & _).
  - destruct b; cbn.
    + split; [|reflexivity]. intros _. exists 1. split; [reflexivity|lia].
    + split; [discriminate|]. intros (z & [= <-] & Hz). lia.
  - rewrite le_int. split.
    + intros [= H]. exists z. split; [reflexivity|]. now apply Z.leb_gt.
    + intros (z' & [= <-] & Hz). f_equal. now apply Z.leb_gt.
  - split; [discriminate|]. intros (z & [=] & _).
  - split; [discriminate|]. intros (z & [=] & _).
Qed.

(** The constructor accepts a score exactly when [0 <= v <= 100]. *)
Lemma grade_ok_true_iff (v : pyval) :
  Student.grade_ok v = Ok true <-> score_valid v.
Proof.
  unfold Student.grade_ok, score_valid.
  destruct (isinstance_int_float v) eqn:E.
  - destruct (Py.le (PyInt 0) v) as [[|]|] eqn:Hlow; cbn.
    + split; [now intros ->|]. now intros [_ ->].
    + split; [discriminate|]. intros [[=] _].
    + split; [discriminate|]. intros [[=] _].
  - split; [discriminate|].
    destruct v; try discriminate; cbn; intros [[=] _].
Qed.

Lemma init_Ok_iff (self : nat) (name : string) (age : pyval)
    (grades : list pyval) (s : Student.t) :
  Student.init self name age grades = Ok s <->
  s = Student.mk self name age grades /\
  age_valid age /\ Forall score_valid grades.
Proof.
  rewrite <- age_bad_false_iff.
  assert (Hall : Py.all Student.grade_ok grades = Ok true <->
                 Forall score_valid grades).
  { rewrite all_true_iff. split; apply Forall_impl; intro; apply grade_ok_true_iff. }
  rewrite <- Hall.
  destruct (init_cases self name age grades)
    as [[Ha ->]|[(Ha & Hg & ->)|(Ha & Hg & ->)]]; rewrite Ha; try rewrite Hg.
  - split; [discriminate|]. intros (_ & [=] & _).
  - split; [discriminate|]. intros (_ & _ & [=]).
  - split; [now intros [= <-]|]. now intros (-> & _ & _).
Qed.

Lemma init_valid (self : nat) (name : string) (age : pyval)
    (grades : list pyval) (s : Student.t) :
  Student.init self name age grades = Ok s -> record_valid s.
Proof.
  intros H. apply init_Ok_iff in H as (-> & Ha & Hg). now split.
Qed.

(** [__init__] raises nothing but [ValueError]. *)
Lemma init_raises_ValueError (self : nat) (name : string) (age : pyval)
    (grades : list pyval) (e : exn) :
  Student.init self name age grades = Raise e -> exists msg, e = ValueError msg.
Proof.
  destruct (init_cases self name age grades)
    as [[_ ->]|[(_ & _ & ->)|(_ & _ & ->)]]; intros [= <-]; eauto.
Qed.

(** ** Adding a student *)

Lemma new_Student_run (name : string) (age : pyval) (grades : list pyval)
    (st : state) :
  new_Student name age grades st =
    match Student.init (next_oid st) name age grades with
    | Ok s => ([], mkState (students st) (S (next_oid st)), Ok s)
    | Raise e => ([], st, Raise e)
    end.
Proof. reflexivity. Qed.

Lemma add_student_accepted (name : string) (age : Z) (grades : list float)
    (st : state) (s : Student.t) :
  Student.init (next_oid st) name (PyInt age) (map PyFloat grades) = Ok s ->
  add_student name (Ok age) (Ok grades) st =
    ([Text ("Student '" ++ name ++ "' added.")],
     mkState (students st ++ [s]) (S (next_oid st)), Ok tt).
Proof.
  intros H.
  unfold add_student, try_except_ValueError, bind, lift, new_Student.
  rewrite H. reflexivity.
Qed.

Lemma add_student_rejected (name : string) (age : Z) (grades : list float)
    (st : state) (msg : string) :
  Student.init (next_oid st) name (PyInt age) (map PyFloat grades) =
    Raise (ValueError msg) ->
  add_student name (Ok age) (Ok grades) st =
    ([Text ("Error: " ++ msg)], st, Ok tt).
Proof.
  intros H.
  unfold add_student, try_except_ValueError, bind, lift, new_Student.
  rewrite H. reflexivity.
Qed.

(** An age that [int] cannot parse: the error is reported and nothing
    changes. *)
Lemma add_student_age_unparsed (name msg : string)
    (grades_in : result (list float)) (st : state) :
  add_student name (Raise (ValueError msg)) grades_in st =
    ([Text ("Error: " ++ msg)], st, Ok tt).
Proof. reflexivity. Qed.

(** X2.  An age that is not positive: [add_student] reports the
    constructor's error about the age, whatever the grades are, and nothing
    changes. *)
Lemma add_student_rejects_age (name : string) (age : Z) (grades : list float)
    (st : state) :
  age <= 0 ->
  add_student name (Ok age) (Ok grades) st =
    ([Text "Error: Age must be a positive integer."], st, Ok tt).
Proof.
  intros Hage.
  apply (add_student_rejected name age grades st "Age must be a positive integer.").
  destruct (init_cases (next_oid st) name (PyInt age) (map PyFloat grades))
    as [[_ H]|[(Ha & _)|(Ha & _)]]; [exact H| |];
    rewrite age_bad_int in Ha; injection Ha as Ha; apply Z.leb_gt in Ha; lia.
Qed.

(** X3.  A grade below 0 or above 100, with a positive age:
    [add_student] reports the constructor's error about the grades and
    nothing changes. *)
Lemma add_student_rejects_grade (name : string) (age : Z) (grades : list float)
    (st : state) (g : float) :
  0 < age -> In g grades -> score_out_of_range (PyFloat g) ->
  add_student name (Ok age) (Ok grades) st =
    ([Text "Error: Grades must be numbers between 0 and 100."], st, Ok tt).
Proof.
  intros Hage Hin Hout.
  apply (add_student_rejected name age grades st
           "Grades must be numbers between 0 and 100.").
  assert (Hall : Py.all Student.grade_ok (map PyFloat grades) = Ok false).
  { apply (all_false_of_In _ _ (PyFloat g) grade_ok_total).
    - now apply in_map.
    - now apply grade_ok_out_of_range. }
  destruct (init_cases (next_oid st) name (PyInt age) (map PyFloat grades))
    as [[Ha _]|[(_ & _ & H)|(_ & Hg & _)]]; [|exact H|congruence].
  rewrite age_bad_int in Ha. injection Ha as Ha. apply Z.leb_le in Ha. lia.
Qed.

(** What [add_student] does to the state, whatever is entered. *)
Lemma add_student_state (name : string) (age_in : result Z)
    (grades_in : result (list float)) (st : state) :
  exists out r,
    (add_student name age_in grades_in st = (out, st, r)) \/
    (exists s,
        Student.oid s = next_oid st /\ Student.name s = name /\ record_valid s /\
        add_student name age_in grades_in st =
          (out, mkState (students st ++ [s]) (S (next_oid st)), r)).
Proof.
  destruct age_in as [age|e].
  2:{ destruct e; do 2 eexists; left; reflexivity. }
  destruct grades_in as [grades|e].
  2:{ destruct e; do 2 eexists; left; reflexivity. }
  destruct (Student.init (next_oid st) name (PyInt age) (map PyFloat grades))
    as [s|e] eqn:E.
  - do 2 eexists. right. exists s.
    pose proof (init_valid _ _ _ _ _ E) as Hv.
    apply init_Ok_iff in E as E'. destruct E' as (-> & _).
    repeat split; try apply Hv.
    rewrite (add_student_accepted _ _ _ _ _ E). reflexivity.
  - destruct (init_raises_ValueError _ _ _ _ _ E) as [msg ->].
    do 2 eexists. left. rewrite (add_student_rejected _ _ _ _ _ E). reflexivity.
Qed.

(** ** Listing *)

Lemma display_run {S : Type} (s : Student.t) (st : S) :
  Student.display s st =
    match Student.average_grade s with
    | Ok average =>
        ([Display (Student.name s) (Student.age s) (Student.grades s) average],
         st, Ok tt)
    | Raise e => ([], st, Raise e)
    end.
Proof.
  unfold Student.display, bind, lift, print.
  destruct (Student.average_grade s); reflexivity.
Qed.

Lemma display_state {S : Type} (s : Student.t) (st : S) :
  snd (fst (Student.display s st)) = st.
Proof.
  rewrite display_run. destruct (Student.average_grade s); reflexivity.
Qed.

Lemma for_each_display_state {S : Type} (l : list Student.t) (st : S) :
  snd (fst (for_each l Student.display st)) = st.
Proof.
  induction l as [|s l IH]; [reflexivity|].
  cbn [for_each]. unfold bind. rewrite display_run.
  destruct (Student.average_grade s); [|reflexivity].
  specialize IH. destruct (for_each l Student.display st) as [[out st'] r] eqn:E.
  cbn in IH. subst st'. reflexivity.
Qed.

Lemma bind_assoc {S A B C : Type} (m : M S A) (k : A -> M S B)
    (h : B -> M S C) (st : S) :
  bind (bind m k) h st = bind m (fun a => bind (k a) h) st.
Proof.
  unfold bind.
  destruct (m st) as [[out st1] [a|e]]; [|reflexivity].
  destruct (k a st1) as [[out1 st2] [b|e]]; [|reflexivity].
  destruct (h b st2) as [[out2 st3] r]. now rewrite app_assoc.
Qed.

Lemma bind_ext {S A B : Type} (m : M S A) (k k' : A -> M S B) (st : S) :
  (forall a st1, k a st1 = k' a st1) -> bind m k st = bind m k' st.
Proof.
  intros H. unfold bind.
  destruct (m st) as [[out st1] [a|e]]; [|reflexivity]. now rewrite H.
Qed.

(** A loop over a list extended by one item runs the loop over the list
    and then the body on the item. *)
Lemma for_each_snoc {S A : Type} (l : list A) (x : A) (body : A -> M S unit)
    (st : S) :
  for_each (l ++ [x]) body st = (for_each l body ;; body x)%console st.
Proof.
  revert st. induction l as [|y l IH]; intros st; cbn [for_each app].
  - unfold bind, ret.
    destruct (body x st) as [[out st1] [[]|e]]; cbn; try reflexivity.
    now rewrite app_nil_r.
  - rewrite bind_assoc. apply bind_ext. intros _ st1. apply IH.
Qed.

Lemma list_students_nonempty (st : state) :
  students st <> [] ->
  list_students st = for_each (students st) Student.display st.
Proof.
  unfold list_students, bind, get.
  destruct (students st) as [|s l] eqn:E; [congruence|]. intros _. cbn [Py.list_truth negb].
  destruct (for_each (s :: l) Student.display st) as [[out st1] r].
  reflexivity.
Qed.


(** C10.  A call of the constructor whose grades contain a value that is
    neither an [int] nor a [float] raises [ValueError]; the state is
    unchanged, and the statements of [add_student] around such a call
    append nothing and report the error.  With an acceptable age the error
    is the one about the grades. *)
Theorem new_Student_rejects_non_number (name : string) (age : pyval)
    (grades : list pyval) (g : pyval) (st : state) :
  In g grades ->
  isinstance_int_float g = false ->
  exists msg,
    new_Student name age grades st = ([], st, Raise (ValueError msg)) /\
    try_except_ValueError
      (student <- new_Student name age grades ;;
       students_append student ;;
       print (Text ("Student '" ++ name ++ "' added.")))%console
      (fun ve => print (Text ("Error: " ++ ve))) st =
      ([Text ("Error: " ++ msg)], st, Ok tt) /\
    (Student.age_bad age = Ok false ->
     msg = "Grades must be numbers between 0 and 100.").
Proof.
  intros Hin Hg.
  assert (Hall : Py.all Student.grade_ok grades = Ok false).
  { apply (all_false_of_In _ _ g grade_ok_total Hin).
    now apply grade_ok_not_number. }
  destruct (init_cases (next_oid st) name age grades)
    as [[Ha H]|[(Ha & _ & H)|(_ & Hok & _)]]; [| |congruence].
  - exists "Age must be a positive integer.".
    unfold try_except_ValueError, bind. rewrite new_Student_run, H.
    repeat split. congruence.
  - exists "Grades must be numbers between 0 and 100.".
    unfold try_except_ValueError, bind. rewrite new_Student_run, H.
    repeat split.
Qed.

(** ** The average *)

Lemma sum_from_ints (acc : Z) (zs : list Z) :
  Py.sum_from (PyInt acc) (map PyInt zs) = Ok (PyInt (fold_left Z.add zs acc)).
Proof.
  revert acc. induction zs as [|z zs IH]; intros acc; [reflexivity|].
  cbn [map Py.sum_from fold_left]. cbn [Py.add as_int rbind]. apply IH.
Qed.

(** The sum of integer grades is their exact sum. *)
Lemma sum_ints (zs : list Z) :
  Py.sum (map PyInt zs) = Ok (PyInt (fold_left Z.add zs 0)).
Proof. apply sum_from_ints. Qed.

Lemma sum_from_floats (acc : float) (fs : list float) :
  Py.sum_from (PyFloat acc) (map PyFloat fs) =
    Ok (PyFloat (fold_left (SFadd prec emax) fs acc)).
Proof.
  revert acc. induction fs as [|f fs IH]; intros acc; [reflexivity|].
  cbn [map Py.sum_from fold_left]. cbn [Py.add as_int rbind]. apply IH.
Qed.

(** The plain summation of float grades adds them from left to right,
    starting from zero. *)
Lemma sum_floats (fs : list float) :
  Py.sum (map PyFloat fs) =
    Ok match fs with
       | [] => PyInt 0
       | _ :: _ => PyFloat (fold_left (SFadd prec emax) fs (S754_zero false))
       end.
Proof.
  destruct fs as [|f fs]; [reflexivity|].
  unfold Py.sum. cbn [map Py.sum_from].
  change (Py.add (PyInt 0) (PyFloat f))
    with (Ok (PyFloat (SFadd prec emax (S754_zero false) f))).
  cbn [rbind]. now rewrite sum_from_floats.
Qed.

(** With integer grades the average is their exact sum divided by their
    number, rounded once. *)
Lemma average_grade_ints (self : nat) (name : string) (age : pyval)
    (z : Z) (zs : list Z) :
  Student.average_grade (Student.mk self name age (map PyInt (z :: zs))) =
    Py.int_true_divide (fold_left Z.add (z :: zs) 0)
      (Z.of_nat (List.length (z :: zs))).
Proof.
  unfold Student.average_grade. cbn [Student.grades Py.list_truth map].
  change (PyInt z :: map PyInt zs) with (map PyInt (z :: zs)).
  rewrite sum_ints. cbn [rbind]. unfold Py.len. now rewrite length_map.
Qed.

(** With float grades and the plain summation, the average is their sum
    from left to right divided by their number as a float. *)
Lemma average_grade_floats (self : nat) (name : string) (age : pyval)
    (f : float) (fs : list float) :
  Student.average_grade (Student.mk self name age (map PyFloat (f :: fs))) =
    (n <- Py.float_of_int (Z.of_nat (List.length (f :: fs))) ;;
     Py.float_div (fold_left (SFadd prec emax) (f :: fs) (S754_zero false)) n)%result.
Proof.
  unfold Student.average_grade. cbn [Student.grades Py.list_truth map].
  change (PyFloat f :: map PyFloat fs) with (map PyFloat (f :: fs)).
  rewrite sum_floats. cbn [rbind]. unfold Py.len. now rewrite length_map.
Qed.


(** ** Effect of the operations on the state *)

Lemma set_students_same (st : state) : set_students (students st) st = st.
Proof. now destruct st. Qed.

Lemma map_oid_update_object (self : Student.t) (f : Student.t -> Student.t)
    (l : list Student.t) :
  (forall x, Student.oid (f x) = Student.oid x) ->
  map Student.oid (update_object self f l) = map Student.oid l.
Proof.
  intros Hf. unfold update_object. rewrite map_map. apply map_ext.
  intros x. destruct (Nat.eqb (Student.oid x) (Student.oid self)); auto.
Qed.

Lemma remove_object_Some (x : Student.t) (l l' : list Student.t) :
  remove_object x l = Some l' ->
  exists before y after, l = before ++ y :: after /\ l' = before ++ after.
Proof.
  revert l'. induction l as [|y l IH]; intros l'; cbn; [discriminate|].
  destruct (Nat.eqb (Student.oid y) (Student.oid x)).
  - intros [= <-]. now exists [], y, l.
  - destruct (remove_object x l) as [l0|]; cbn; [|discriminate].
    intros [= <-]. destruct (IH l0 eq_refl) as (before & z & after & -> & ->).
    now exists (y :: before), z, after.
Qed.

Lemma bind_state {S A B : Type} (m : M S A) (k : A -> M S B) (st : S) :
  snd (fst (bind m k st)) =
    match m st with
    | (_, st1, Ok a) => snd (fst (k a st1))
    | (_, st1, Raise _) => st1
    end.
Proof.
  unfold bind. destruct (m st) as [[out st1] [a|e]]; [|reflexivity].
  now destruct (k a st1) as [[out' st2] r].
Qed.

Section Effects.

Variable lower : string -> string.

(** [update_student] keeps the objects of the list and their order. *)
Lemma update_student_state (name : string) (age_in : result Z)
    (grades_in : result (list float)) (st : state) :
  exists l,
    snd (fst (update_student lower name age_in grades_in st)) = set_students l st /\
    map Student.oid l = map Student.oid (students st).
Proof.
  unfold update_student. rewrite bind_state, find_student_run.
  destruct (find_in lower (students st) name) as [s|].
  2:{ exists (students st). now rewrite set_students_same. }
  destruct age_in as [age|e].
  2:{ exists (students st). rewrite set_students_same. now destruct e. }
  destruct grades_in as [grades|e].
  2:{ exists (students st). rewrite set_students_same. now destruct e. }
  eexists. split; [reflexivity|]. cbn [students set_students].
  now rewrite !map_oid_update_object.
Qed.

(** [delete_student] keeps the list or removes one item from it. *)
Lemma delete_student_state (name : string) (st : state) :
  snd (fst (delete_student lower name st)) = st \/
  exists before y after,
    students st = before ++ y :: after /\
    snd (fst (delete_student lower name st)) = set_students (before ++ after) st.
Proof.
  unfold delete_student. rewrite bind_state, find_student_run.
  destruct (find_in lower (students st) name) as [s|]; [|now left].
  rewrite bind_state. unfold students_remove.
  destruct (remove_object s (students st)) as [l|] eqn:E; [|now left].
  right. destruct (remove_object_Some _ _ _ E) as (before & y & after & Hl & ->).
  now exists before, y, after.
Qed.

Lemma view_student_state (name : string) (st : state) :
  snd (fst (view_student lower name st)) = st.
Proof.
  unfold view_student. rewrite bind_state, find_student_run.
  destruct (find_in lower (students st) name); [apply display_state|reflexivity].
Qed.

Lemma list_students_state (st : state) : snd (fst (list_students st)) = st.
Proof.
  unfold list_students. rewrite bind_state. unfold get.
  destruct (negb (Py.list_truth (students st)));
    [reflexivity|apply for_each_display_state].
Qed.

Lemma run_choice_wf (c : command) (st : state) :
  store_wf st -> store_wf (snd (fst (run_choice lower c st))).
Proof.
  intros [Hnd Hlt]. destruct c as [name a g|name a g|name|name| |]; cbn [run_choice].
  - destruct (add_student_state name a g st) as (out & r & [H|(s & Hs & _ & _ & H)]);
      rewrite H; cbn [fst snd]; [now split|].
    split; cbn [students next_oid].
    + rewrite map_app. cbn. apply NoDup_app; [assumption|constructor; [intros []|constructor]|].
      intros x Hx [<-|[]]. rewrite in_map_iff in Hx.
      destruct Hx as (y & Hy & Hin). rewrite Forall_forall in Hlt.
      specialize (Hlt y Hin). lia.
    + apply Forall_app. split.
      * eapply Forall_impl; [|exact Hlt]. cbn. intros; lia.
      * constructor; [lia|constructor].
  - destruct (update_student_state name a g st) as (l & -> & Hl).
    unfold store_wf. cbn [students next_oid set_students]. rewrite Hl.
    split; [assumption|].
    rewrite Forall_forall in *. intros x Hx.
    assert (Hin : In (Student.oid x) (map Student.oid (students st))).
    { rewrite <- Hl. now apply in_map. }
    rewrite in_map_iff in Hin. destruct Hin as (y & <- & Hy). auto.
  - destruct (delete_student_state name st)
      as [->|(before & y & after & Hl & ->)]; [now split|].
    unfold store_wf. cbn [students next_oid set_students].
    rewrite Hl in Hnd, Hlt. split.
    + rewrite map_app in *. cbn in Hnd. now apply NoDup_remove_1 in Hnd.
    + apply Forall_app in Hlt as [Hb Ha]. apply Forall_app. split; [assumption|].
      now inversion Ha.
  - rewrite view_student_state. now split.
  - rewrite list_students_state. now split.
  - now split.
Qed.

Lemma print_menu_run (st : state) :
  exists out, print_menu st = (out, st, Ok tt).
Proof. eexists. reflexivity. Qed.

(** The state in which the menu loop ends is the state in which its turns,
    run one after the other, end. *)
Lemma menu_invariant (P : state -> Prop) (ok : command -> bool) :
  (forall c st, ok c = true -> P st -> P (snd (fst (run_choice lower c st)))) ->
  forall cmds st,
    forallb ok cmds = true -> P st -> P (snd (fst (menu lower cmds st))).
Proof.
  intros Hstep. induction cmds as [|c cmds IH]; intros st Hok HP.
  - exact HP.
  - cbn [forallb] in Hok. apply andb_prop in Hok as [Hc Hcmds].
    cbn [menu]. rewrite bind_state.
    destruct (print_menu_run st) as [out ->].
    rewrite bind_state. specialize (Hstep c st Hc HP).
    destruct (run_choice lower c st) as [[out1 st1] [[]|e]]; cbn in Hstep.
    + now apply IH.
    + exact Hstep.
Qed.

(** Every state that the program reaches is well formed. *)
Lemma state_after_wf (cmds : list command) : store_wf (state_after lower cmds).
Proof.
  unfold state_after.
  apply (menu_invariant store_wf (fun _ => true)).
  - intros c st _. apply run_choice_wf.
  - now induction cmds.
  - split; constructor.
Qed.

(** X11.  Whatever the turns of the menu are, the list of the state they
    end in holds pairwise distinct objects: no record is in the list
    twice. *)
Lemma state_after_distinct (cmds : list command) :
  distinct_objects (state_after lower cmds).
Proof. apply state_after_wf. Qed.

(** X12.  Without the update operation every record of a reached state
    is valid, with a positive integer age and grades in [0, 100]: adding
    goes through the constructor's checks, and deleting, viewing and listing
    keep the records as they are. *)
Lemma valid_without_update (cmds : list command) :
  forallb (fun c => negb (is_update c)) cmds = true ->
  Forall record_valid (students (state_after lower cmds)).
Proof.
  intros Hcmds. unfold state_after.
  apply (menu_invariant (fun st => Forall record_valid (students st))
           (fun c => negb (is_update c))); [|assumption|constructor].
  intros c st Hc HP.
  destruct c as [name a g|name a g|name|name| |]; cbn [run_choice];
    try discriminate.
  - destruct (add_student_state name a g st) as (out & r & [H|(s & _ & _ & Hs & H)]);
      rewrite H; cbn [fst snd students]; [assumption|].
    apply Forall_app. split; [assumption|now constructor].
  - destruct (delete_student_state name st)
      as [->|(before & y & after & Hl & ->)]; [assumption|].
    cbn [students set_students]. rewrite Hl in HP.
    apply Forall_app in HP as [Hb Ha]. apply Forall_app. split; [assumption|].
    now inversion Ha.
  - now rewrite view_student_state.
  - now rewrite list_students_state.
  - assumption.
Qed.

End Effects.

(** ** Updates and validation *)

(** X5.  An age or a grade that cannot be parsed during the update of a
    student that is found: the error is reported and nothing changes; in
    particular an age that was parsed is not stored when the grades are
    not. *)
Lemma update_student_unparsed (lower : string -> string) (name msg : string)
    (age_in : result Z) (grades_in : result (list float)) (st : state)
    (s : Student.t) :
  find_in lower (students st) name = Some s ->
  age_in = Raise (ValueError msg) \/
  (exists age, age_in = Ok age) /\ grades_in = Raise (ValueError msg) ->
  update_student lower name age_in grades_in st =
    ([Text ("Error: " ++ msg)], st, Ok tt).
Proof.
  intros Hs H. unfold update_student, bind. rewrite find_student_run, Hs.
  destruct H as [->|[[age ->] ->]]; reflexivity.
Qed.

(** C1.  In the state that holds Ann, aged 20: adding a student with age
    -5 or age 0 is refused with the constructor's error and changes
    nothing, whereas updating Ann with age -5 is reported as done and
    stores the age -5. *)
Theorem update_student_accepts_nonpositive_age :
  add_student "Bob" (Ok (-5)) (Ok [float_lit 70]) store_ann =
    ([Text "Error: Age must be a positive integer."], store_ann, Ok tt) /\
  add_student "Bob" (Ok 0) (Ok [float_lit 70]) store_ann =
    ([Text "Error: Age must be a positive integer."], store_ann, Ok tt) /\
  update_student ascii_lower "Ann" (Ok (-5))
      (Ok [float_lit 90; float_lit 80]) store_ann =
    ([Text "Student 'Ann' updated."],
     {| students :=
          [Student.mk 0 "Ann" (PyInt (-5))
             [PyFloat (float_lit 90); PyFloat (float_lit 80)]];
        next_oid := 1 |},
     Ok tt).
Proof. repeat split; vm_compute; reflexivity. Qed.

(** C2.  In the state that holds Ann with grades 90 and 80: adding a
    student with the grades 150 and -1 is refused with the constructor's
    error and changes nothing, whereas updating Ann with these grades is
    reported as done and stores them. *)
Theorem update_student_accepts_out_of_range_grade :
  score_out_of_range (PyFloat (float_lit 150)) /\
  score_out_of_range (PyFloat (float_lit (-1))) /\
  add_student "Bob" (Ok 20) (Ok [float_lit 150; float_lit (-1)]) store_ann =
    ([Text "Error: Grades must be numbers between 0 and 100."], store_ann, Ok tt) /\
  update_student ascii_lower "Ann" (Ok 20)
      (Ok [float_lit 150; float_lit (-1)]) store_ann =
    ([Text "Student 'Ann' updated."],
     {| students :=
          [Student.mk 0 "Ann" (PyInt 20)
             [PyFloat (float_lit 150); PyFloat (float_lit (-1))]];
        next_oid := 1 |},
     Ok tt).
Proof.
  repeat split; try (vm_compute; reflexivity).
  - right. vm_compute. reflexivity.
  - left. vm_compute. reflexivity.
Qed.

(** C3.  Starting without students, the turns "add Ann, aged 20, with
    grades 90 and 80" and "update ann to age -5 with grade 150" end in a
    state whose only record has the age -5 and the grade 150: a reachable
    state with a record that is not valid. *)
Theorem menu_reaches_invalid_record :
  let cmds :=
    [Choice1 "Ann" (Ok 20) (Ok [float_lit 90; float_lit 80]);
     Choice2 "ann" (Ok (-5)) (Ok [float_lit 150])] in
  students (state_after ascii_lower cmds) =
    [Student.mk 0 "Ann" (PyInt (-5)) [PyFloat (float_lit 150)]] /\
  Exists (fun s => ~ age_valid (Student.age s) /\
                   Exists (fun v => ~ score_valid v) (Student.grades s))
    (students (state_after ascii_lower cmds)) /\
  ~ Forall record_valid (students (state_after ascii_lower cmds)).
Proof.
  intros cmds.
  assert (Hst : students (state_after ascii_lower cmds) =
                [Student.mk 0 "Ann" (PyInt (-5)) [PyFloat (float_lit 150)]]).
  { vm_compute. reflexivity. }
  assert (Hage : ~ age_valid (PyInt (-5))).
  { intros (z & [= <-] & Hz). lia. }
  rewrite Hst. repeat split.
  - constructor. cbn [Student.age Student.grades]. split; [exact Hage|].
    constructor. intros [_ H]. vm_compute in H. discriminate.
  - intros H. inversion H as [|? ? [Ha _] _]; subst. exact (Hage Ha).
Qed.

(** ** The session of the specification's examples *)

(** After Ann has been added, a lookup in any letter case returns her
    record. *)
Example find_ann_any_case :
  add_student "Ann" (Ok 20) (Ok [float_lit 90; float_lit 80]) initial =
    ([Text "Student 'Ann' added."], store_ann, Ok tt) /\
  find_student ascii_lower "ann" store_ann = ([], store_ann, Ok (Some ann)) /\
  find_student ascii_lower "ANN" store_ann = ([], store_ann, Ok (Some ann)) /\
  find_student ascii_lower "aNn" store_ann = ([], store_ann, Ok (Some ann)).
Proof. repeat split; by_evaluation. Qed.

(** After Ann has been deleted, a lookup finds nothing and the list is
    empty. *)
Example delete_ann_then_find :
  delete_student ascii_lower "Ann" store_ann =
    ([Text "Student 'Ann' deleted."], mkState [] 1, Ok tt) /\
  find_student ascii_lower "Ann" (mkState [] 1) = ([], mkState [] 1, Ok None) /\
  list_students (mkState [] 1) =
    ([Text "No students in the system."], mkState [] 1, Ok tt).
Proof. repeat split; by_evaluation. Qed.

(** Updating Ann to age 21 with the single grade 100 keeps her place in the
    list; the listing shows the new values and the average 100. *)
Example update_ann_then_list :
  let st' :=
    mkState [ann; bob] 2 in
  let st'' :=
    mkState [Student.mk 0 "Ann" (PyInt 21) [PyFloat (float_lit 100)]; bob] 2 in
  update_student ascii_lower "Ann" (Ok 21) (Ok [float_lit 100]) st' =
    ([Text "Student 'Ann' updated."], st'', Ok tt) /\
  list_students st'' =
    ([Display "Ann" (PyInt 21) [PyFloat (float_lit 100)] (PyFloat (float_lit 100));
      Display "Bob" (PyInt 31) [PyFloat (float_lit 70)] (PyFloat (float_lit 70))],
     st'', Ok tt).
Proof. repeat split; by_evaluation. Qed.

(** The average of the grades 90 and 80 is 85; without grades it is the
    integer 0. *)
Example average_grade_examples :
  Student.average_grade ann = Ok (PyFloat (float_lit 85)) /\
  Student.average_grade (Student.mk 7 "Eve" (PyInt 19) []) = Ok (PyInt 0) /\
  Student.average_grade (Student.mk 8 "Dan" (PyInt 19) [PyInt 1; PyInt 2]) =
    Py.truediv (PyInt 3) (PyInt 2).
Proof. repeat split; by_evaluation. Qed.

(** ** Instances of the conditional properties *)

Lemma no_match_not_found_witness :
  Forall (fun x => ascii_lower (Student.name x) <> ascii_lower "Zoe")
    (students store_ann_bob) /\
  update_student ascii_lower "Zoe" (Ok 30) (Ok [float_lit 50]) store_ann_bob =
    ([Text "Student not found."], store_ann_bob, Ok tt).
Proof.
  assert (H : Forall (fun x => ascii_lower (Student.name x) <> ascii_lower "Zoe")
                (students store_ann_bob)) by no_match_by_evaluation.
  split; [exact H|].
  exact (proj1 (proj2 (no_match_not_found ascii_lower "Zoe" store_ann_bob H))
           (Ok 30) (Ok [float_lit 50])).
Defined.

Lemma update_student_in_place_witness :
  distinct_objects store_ann_bob /\
  Exists (fun x => ascii_lower (Student.name x) = ascii_lower "BOB")
    (students store_ann_bob) /\
  exists before s after,
    students store_ann_bob = before ++ s :: after /\
    ascii_lower (Student.name s) = ascii_lower "BOB" /\
    Forall (fun x => ascii_lower (Student.name x) <> ascii_lower "BOB") before /\
    forall (age : Z) (grades : list float),
      update_student ascii_lower "BOB" (Ok age) (Ok grades) store_ann_bob =
        ([Text ("Student '" ++ "BOB" ++ "' updated.")],
         set_students
           (before ++
            Student.mk (Student.oid s) (Student.name s) (PyInt age)
              (map PyFloat grades) :: after) store_ann_bob,
         Ok tt).
Proof.
  assert (Hd : distinct_objects store_ann_bob) by distinct_by_evaluation.
  assert (He : Exists (fun x => ascii_lower (Student.name x) = ascii_lower "BOB")
                 (students store_ann_bob)).
  { apply Exists_cons_tl, Exists_cons_hd. reflexivity. }
  split; [exact Hd|]. split; [exact He|].
  exact (update_student_in_place ascii_lower "BOB" store_ann_bob Hd He).
Defined.

Lemma delete_student_removes_first_match_witness :
  distinct_objects store_ann_bob /\
  Exists (fun x => ascii_lower (Student.name x) = ascii_lower "ANN")
    (students store_ann_bob) /\
  exists before s after,
    students store_ann_bob = before ++ s :: after /\
    ascii_lower (Student.name s) = ascii_lower "ANN" /\
    Forall (fun x => ascii_lower (Student.name x) <> ascii_lower "ANN") before /\
    delete_student ascii_lower "ANN" store_ann_bob =
      ([Text ("Student '" ++ "ANN" ++ "' deleted.")],
       set_students (before ++ after) store_ann_bob, Ok tt) /\
    ~ In s (before ++ after) /\
    (Forall (fun x => ascii_lower (Student.name x) <> ascii_lower "ANN") after ->
     find_student ascii_lower "ANN" (set_students (before ++ after) store_ann_bob) =
       ([], set_students (before ++ after) store_ann_bob, Ok None)).
Proof.
  assert (Hd : distinct_objects store_ann_bob) by distinct_by_evaluation.
  assert (He : Exists (fun x => ascii_lower (Student.name x) = ascii_lower "ANN")
                 (students store_ann_bob)).
  { apply Exists_cons_hd. reflexivity. }
  split; [exact Hd|]. split; [exact He|].
  exact (delete_student_removes_first_match ascii_lower "ANN" store_ann_bob Hd He).
Defined.


Lemma new_Student_rejects_non_number_witness :
  In (PyStr "A+") [PyFloat (float_lit 90); PyStr "A+"] /\
  isinstance_int_float (PyStr "A+") = false /\
  exists msg,
    new_Student "Bob" (PyInt 31) [PyFloat (float_lit 90); PyStr "A+"] store_ann =
      ([], store_ann, Raise (ValueError msg)) /\
    try_except_ValueError
      (student <- new_Student "Bob" (PyInt 31) [PyFloat (float_lit 90); PyStr "A+"] ;;
       students_append student ;;
       print (Text ("Student '" ++ "Bob" ++ "' added.")))%console
      (fun ve => print (Text ("Error: " ++ ve))) store_ann =
      ([Text ("Error: " ++ msg)], store_ann, Ok tt) /\
    (Student.age_bad (PyInt 31) = Ok false ->
     msg = "Grades must be numbers between 0 and 100.").
Proof.
  assert (Hin : In (PyStr "A+") [PyFloat (float_lit 90); PyStr "A+"]).
  { right. left. reflexivity. }
  split; [exact Hin|]. split; [reflexivity|].
  exact (new_Student_rejects_non_number "Bob" (PyInt 31)
           [PyFloat (float_lit 90); PyStr "A+"] (PyStr "A+") store_ann Hin eq_refl).
Defined.

(** * Further properties *)

(** ** Integers as floats *)

Lemma digits2_pos_lower (p : positive) :
  2 ^ (Zpos (digits2_pos p) - 1) <= Zpos p.
Proof.
  induction p as [p IH|p IH|]; cbn [digits2_pos].
  - rewrite Pos2Z.inj_succ.
    replace (Z.succ (Zpos (digits2_pos p)) - 1)
      with (Z.succ (Zpos (digits2_pos p) - 1)) by lia.
    rewrite Z.pow_succ_r by lia. lia.
  - rewrite Pos2Z.inj_succ.
    replace (Z.succ (Zpos (digits2_pos p)) - 1)
      with (Z.succ (Zpos (digits2_pos p) - 1)) by lia.
    rewrite Z.pow_succ_r by lia. lia.
  - cbn. lia.
Qed.

Lemma digits2_pos_small (p : positive) :
  Zpos p < 2 ^ 53 -> Zpos (digits2_pos p) <= 53.
Proof.
  intros H. pose proof (digits2_pos_lower p) as L.
  assert (Hlt : 2 ^ (Zpos (digits2_pos p) - 1) < 2 ^ 53) by lia.
  apply Z.pow_lt_mono_r_iff in Hlt; lia.
Qed.

Lemma digits2_pos_iter_xO (p k : positive) :
  digits2_pos (Pos.iter xO p k) = (digits2_pos p + k)%positive.
Proof.
  induction k as [|k IH] using Pos.peano_ind.
  - cbn. lia.
  - rewrite Pos.iter_succ. cbn [digits2_pos]. rewrite IH. lia.
Qed.

(** Rounding leaves a mantissa of 53 bits with an exponent in range as it
    is. *)
Lemma binary_round_aux_exact (m : positive) (e : Z) :
  Zpos (digits2_pos m) = 53 -> -1074 <= e <= 971 ->
  binary_round_aux prec emax false (Zpos m) e loc_Exact = S754_finite false m e.
Proof.
  intros Hd He.
  assert (Hs : shr_fexp prec emax (Zpos m) e loc_Exact =
               ({| shr_m := Zpos m; shr_r := false; shr_s := false |}, e)).
  { unfold shr_fexp. cbn [Zdigits2 shr_record_of_loc]. rewrite Hd.
    unfold fexp, SpecFloat.emin, prec, emax.
    replace (Z.max (53 + e - 53) (3 - 1024 - 53) - e) with 0 by lia.
    reflexivity. }
  unfold binary_round_aux. rewrite Hs.
  cbn [shr_m loc_of_shr_record round_nearest_even].
  rewrite Hs. cbn [shr_m]. unfold prec, emax.
  replace (e <=? 1024 - 53) with true by (symmetry; apply Z.leb_le; lia).
  reflexivity.
Qed.

(** A positive integer below 2^53 converts to a finite, nonzero float. *)
Lemma float_of_int_small (z : Z) :
  0 < z < 2 ^ 53 ->
  exists m e, Py.float_of_int z = Ok (S754_finite false m e).
Proof.
  intros [Hpos H]. destruct z as [|p|p]; try lia.
  pose proof (digits2_pos_small p H) as Hd.
  pose proof (Pos2Z.is_pos (digits2_pos p)) as Hp.
  assert (Hn : exists m e,
             binary_normalize prec emax (Zpos p) 0 false = S754_finite false m e).
  { unfold binary_normalize, binary_round.
    remember (fexp prec emax (Zpos (digits2_pos p) + 0)) as ex' eqn:Hex.
    assert (Hex' : ex' = Zpos (digits2_pos p) - 53).
    { subst ex'. unfold fexp, SpecFloat.emin, prec, emax. lia. }
    clear Hex. unfold shl_align.
    destruct (ex' - 0) as [|q|q] eqn:Eq; try lia.
    - exists p, 0. apply binary_round_aux_exact; lia.
    - exists (Pos.iter xO p q), ex'. apply binary_round_aux_exact.
      + rewrite digits2_pos_iter_xO. lia.
      + lia. }
  destruct Hn as (m & e & Hn). exists m, e.
  unfold Py.float_of_int. now rewrite Hn.
Qed.

(** ** Exact arithmetic on the floats of integers *)

Lemma digits2_pos_upper (p : positive) : Zpos p < 2 ^ Zpos (digits2_pos p).
Proof.
  induction p as [p IH|p IH|]; cbn [digits2_pos].
  - rewrite Pos2Z.inj_succ, Z.pow_succ_r by lia. lia.
  - rewrite Pos2Z.inj_succ, Z.pow_succ_r by lia. lia.
  - cbn. lia.
Qed.

Lemma Zpos_iter_xO (p k : positive) :
  Zpos (Pos.iter xO p k) = Zpos p * 2 ^ Zpos k.
Proof.
  induction k as [|k IH] using Pos.peano_ind.
  - cbn. lia.
  - rewrite Pos.iter_succ, Pos2Z.inj_xO, IH, Pos2Z.inj_succ, Z.pow_succ_r by lia.
    lia.
Qed.

(** A positive number that is [p] times a power of two is [p] shifted. *)
Lemma scaled_cases (P p : positive) (j : Z) :
  0 <= j -> Zpos P = Zpos p * 2 ^ j ->
  (j = 0 /\ P = p) \/ (exists k, j = Zpos k /\ P = Pos.iter xO p k).
Proof.
  intros Hj H. destruct j as [|k|k].
  - left. split; [reflexivity|]. rewrite Z.pow_0_r in H. lia.
  - right. exists k. split; [reflexivity|].
    apply Pos2Z.inj. now rewrite Zpos_iter_xO.
  - lia.
Qed.

Lemma digits2_pos_scaled (P p : positive) (j : Z) :
  0 <= j -> Zpos P = Zpos p * 2 ^ j ->
  Zpos (digits2_pos P) = Zpos (digits2_pos p) + j.
Proof.
  intros Hj H.
  destruct (scaled_cases P p j Hj H) as [[-> ->]|(k & -> & ->)]; [lia|].
  rewrite digits2_pos_iter_xO. lia.
Qed.

Lemma iter_pos_Pos_iter {A : Type} (f : A -> A) (n : positive) (x : A) :
  iter_pos f n x = Pos.iter f x n.
Proof.
  revert x. induction n as [n IH|n IH|]; intros x; cbn [iter_pos Pos.iter].
  - rewrite !IH. now rewrite <- !Pos.iter_swap.
  - now rewrite !IH.
  - reflexivity.
Qed.

(** Shifting out zero bits loses nothing. *)
Lemma shr_zero_bits (q k : positive) :
  iter_pos shr_1 k
    {| shr_m := Zpos (Pos.iter xO q k); shr_r := false; shr_s := false |} =
  {| shr_m := Zpos q; shr_r := false; shr_s := false |}.
Proof.
  rewrite iter_pos_Pos_iter.
  induction k as [|k IH] using Pos.peano_ind.
  - reflexivity.
  - rewrite Pos.iter_succ_r, Pos.iter_succ. cbn [shr_1 orb]. exact IH.
Qed.

Lemma shr_fexp_canonical (m : positive) (e : Z) :
  Zpos (digits2_pos m) = 53 -> -1074 <= e ->
  shr_fexp prec emax (Zpos m) e loc_Exact =
    ({| shr_m := Zpos m; shr_r := false; shr_s := false |}, e).
Proof.
  intros Hd He. unfold shr_fexp. cbn [Zdigits2 shr_record_of_loc]. rewrite Hd.
  unfold fexp, SpecFloat.emin, prec, emax.
  replace (Z.max (53 + e - 53) (3 - 1024 - 53) - e) with 0 by lia.
  reflexivity.
Qed.

(** Rounding an exact mantissa that is a 53-bit mantissa followed by zero
    bits gives that mantissa. *)
Lemma binary_round_aux_scaled (s : bool) (M q : positive) (t e : Z) :
  Zpos (digits2_pos q) = 53 -> 0 <= t -> Zpos M = Zpos q * 2 ^ t ->
  -1074 <= e -> e + t <= 971 ->
  binary_round_aux prec emax s (Zpos M) e loc_Exact = S754_finite s q (e + t).
Proof.
  intros Hd Ht HM He Hmax.
  assert (Hs : shr_fexp prec emax (Zpos M) e loc_Exact =
               ({| shr_m := Zpos q; shr_r := false; shr_s := false |}, e + t)).
  { destruct (scaled_cases M q t Ht HM) as [[-> ->]|(k & -> & ->)].
    - rewrite Z.add_0_r. apply shr_fexp_canonical; assumption.
    - unfold shr_fexp. cbn [Zdigits2 shr_record_of_loc].
      rewrite digits2_pos_iter_xO, Pos2Z.inj_add, Hd.
      unfold fexp, SpecFloat.emin, prec, emax.
      replace (Z.max (53 + Zpos k + e - 53) (3 - 1024 - 53) - e) with (Zpos k) by lia.
      unfold shr. now rewrite shr_zero_bits. }
  unfold binary_round_aux. rewrite Hs.
  cbn [shr_m loc_of_shr_record round_nearest_even].
  rewrite shr_fexp_canonical by (try assumption; lia). cbn [shr_m].
  unfold prec, emax.
  replace (e + t <=? 1024 - 53) with true by (symmetry; apply Z.leb_le; lia).
  reflexivity.
Qed.

(** Normalising [±P * 2^e], where [P] is [p] followed by [j] zero bits
    and [p] has at most 53 bits, gives the 53-bit mantissa of [p]. *)
Lemma binary_round_scaled (s : bool) (P p m : positive) (j e : Z) :
  Zpos (digits2_pos p) <= 53 ->
  0 <= j -> Zpos P = Zpos p * 2 ^ j ->
  Zpos m = Zpos p * 2 ^ (53 - Zpos (digits2_pos p)) ->
  -1074 <= e -> e + j + Zpos (digits2_pos p) - 53 <= 971 ->
  -1074 <= e + j + Zpos (digits2_pos p) - 53 ->
  binary_round prec emax s P e =
    S754_finite s m (e + j + Zpos (digits2_pos p) - 53).
Proof.
  intros Hd Hj HP Hm He Hmax Hmin.
  pose proof (Pos2Z.is_pos (digits2_pos p)) as Hp.
  assert (Hdm : Zpos (digits2_pos m) = 53).
  { rewrite (digits2_pos_scaled m p (53 - Zpos (digits2_pos p))); lia. }
  pose proof (digits2_pos_scaled P p j Hj HP) as HdP.
  unfold binary_round.
  remember (fexp prec emax (Zpos (digits2_pos P) + e)) as ex' eqn:Hex.
  assert (Hex' : ex' = e + j + Zpos (digits2_pos p) - 53).
  { subst ex'. unfold fexp, SpecFloat.emin, prec, emax. lia. }
  clear Hex. unfold shl_align.
  destruct (ex' - e) as [|t|k] eqn:Et.
  - (* the mantissa has 53 bits *)
    replace (e + j + Zpos (digits2_pos p) - 53) with (e + 0) by lia.
    apply binary_round_aux_scaled; try lia.
    rewrite HP, Hm, Z.pow_0_r, Z.mul_1_r. f_equal. f_equal. lia.
  - (* more than 53 bits: zero bits are shifted out *)
    replace (e + j + Zpos (digits2_pos p) - 53) with (e + Zpos t) by lia.
    apply binary_round_aux_scaled; try lia.
    rewrite HP, Hm, <- Z.mul_assoc, <- Z.pow_add_r by lia.
    f_equal. f_equal. lia.
  - (* fewer than 53 bits: zero bits are added *)
    replace (e + j + Zpos (digits2_pos p) - 53) with (ex' + 0) by lia.
    apply binary_round_aux_scaled; try lia.
    rewrite Zpos_iter_xO, HP, Hm, Z.pow_0_r, Z.mul_1_r, <- Z.mul_assoc,
      <- Z.pow_add_r by lia.
    f_equal. f_equal. lia.
Qed.

(** The float of a nonzero integer below 2^53 in absolute value: its
    sign, a mantissa of 53 bits and the exponent that goes with it. *)
Lemma float_lit_finite (N : Z) :
  N <> 0 -> Z.abs N < 2 ^ 53 ->
  exists m e,
    float_lit N = S754_finite (N <? 0) m e /\
    -52 <= e <= 0 /\
    Zpos m = Z.abs N * 2 ^ (- e) /\
    Zpos (digits2_pos m) = 53.
Proof.
  intros Hnz Hlt.
  assert (Hpos : forall (s : bool) (p : positive),
             Zpos p < 2 ^ 53 ->
             exists m e,
               binary_round prec emax s p 0 = S754_finite s m e /\
               -52 <= e <= 0 /\
               Zpos m = Zpos p * 2 ^ (- e) /\
               Zpos (digits2_pos m) = 53).
  { intros s p Hp. pose proof (digits2_pos_small p Hp) as Hd.
    pose proof (Pos2Z.is_pos (digits2_pos p)) as Hdp.
    set (d := Zpos (digits2_pos p)) in *.
    assert (Hm : 0 < Zpos p * 2 ^ (53 - d)).
    { apply Z.mul_pos_pos; [lia|]. apply Z.pow_pos_nonneg; lia. }
    destruct (Zpos p * 2 ^ (53 - d)) as [|m|m] eqn:Em; try lia.
    exists m, (d - 53).
    assert (Hm' : Zpos m = Zpos p * 2 ^ (53 - d)) by (now rewrite Em).
    repeat split; try lia.
    - replace (d - 53) with (0 + 0 + d - 53) by lia.
      apply (binary_round_scaled s p p m 0 0); fold d; try lia.
    - rewrite Hm'. f_equal. f_equal. lia.
    - rewrite (digits2_pos_scaled m p (53 - d)); fold d; lia. }
  destruct N as [|p|p]; [congruence| |];
    apply (Hpos _ p); lia.
Qed.

(** Normalising an integer below 2^53 that is written with [j] more zero
    bits gives its float. *)
Lemma binary_normalize_scaled (N j : Z) :
  0 <= j <= 1000 -> Z.abs N < 2 ^ 53 ->
  binary_normalize prec emax (N * 2 ^ j) (- j) false = float_lit N.
Proof.
  intros Hj Hlt.
  destruct (Z.eq_dec N 0) as [->|Hnz]; [reflexivity|].
  destruct (float_lit_finite N Hnz Hlt) as (m & e & -> & He & Hm & Hd).
  assert (Hpow : 0 < 2 ^ j) by (apply Z.pow_pos_nonneg; lia).
  assert (Hgen : forall (s : bool) (P p : positive),
             Zpos P = Zpos p * 2 ^ j -> Zpos m = Zpos p * 2 ^ (- e) ->
             binary_round prec emax s P (- j) = S754_finite s m e).
  { intros s P p HP Hmp.
    pose proof (digits2_pos_scaled m p (- e) ltac:(lia) Hmp) as Hdm.
    replace e with (- j + j + Zpos (digits2_pos p) - 53) by lia.
    apply (binary_round_scaled s P p m j (- j)); try lia.
    rewrite Hmp. f_equal. f_equal. lia. }
  destruct N as [|p|p]; [congruence| |].
  - destruct (Zpos p * 2 ^ j) as [|P|P] eqn:EP; try lia.
    apply (Hgen false P p); [now rewrite <- EP|exact Hm].
  - assert (EP : Zneg p * 2 ^ j = - (Zpos p * 2 ^ j)) by lia.
    rewrite EP. destruct (Zpos p * 2 ^ j) as [|P|P] eqn:EP'; try lia.
    cbn [Z.opp binary_normalize].
    apply (Hgen true P p); [now rewrite <- EP'|exact Hm].
Qed.

Lemma shl_align_fst (m : positive) (e ez : Z) :
  ez <= e -> Zpos (fst (shl_align m e ez)) = Zpos m * 2 ^ (e - ez).
Proof.
  intros H. unfold shl_align.
  destruct (ez - e) as [|k|k] eqn:E; try lia; cbn [fst].
  - replace (e - ez) with 0 by lia. lia.
  - rewrite Zpos_iter_xO. f_equal. f_equal. lia.
Qed.

Lemma cond_Zopp_abs (N : Z) : SpecFloat.cond_Zopp (N <? 0) (Z.abs N) = N.
Proof. unfold SpecFloat.cond_Zopp. destruct (Z.ltb_spec N 0); lia. Qed.

(** The signed mantissa of the float of [N], shifted to the exponent
    [ez], is [N] with the corresponding number of zero bits. *)
Lemma aligned_mantissa (N : Z) (m : positive) (e ez : Z) :
  Zpos m = Z.abs N * 2 ^ (- e) -> ez <= e <= 0 ->
  SpecFloat.cond_Zopp (N <? 0) (Zpos (fst (shl_align m e ez))) = N * 2 ^ (- ez).
Proof.
  intros Hm He. rewrite shl_align_fst by lia. rewrite Hm.
  rewrite <- Z.mul_assoc, <- Z.pow_add_r by lia.
  replace (- e + (e - ez)) with (- ez) by lia.
  generalize (2 ^ (- ez)). intros X. unfold SpecFloat.cond_Zopp.
  destruct (Z.ltb_spec N 0); [rewrite Z.abs_neq by lia|rewrite Z.abs_eq by lia];
    ring.
Qed.

(** Adding the floats of two integers is exact when the integers and
    their sum are below 2^53 in absolute value. *)
Lemma SFadd_exact (a b : Z) :
  Z.abs a < 2 ^ 53 -> Z.abs b < 2 ^ 53 -> Z.abs (a + b) < 2 ^ 53 ->
  SFadd prec emax (float_lit a) (float_lit b) = float_lit (a + b).
Proof.
  intros Ha Hb Hab.
  destruct (Z.eq_dec a 0) as [->|Hanz].
  { rewrite Z.add_0_l. destruct (Z.eq_dec b 0) as [->|Hbnz]; [reflexivity|].
    destruct (float_lit_finite b Hbnz Hb) as (m & e & -> & _). reflexivity. }
  destruct (Z.eq_dec b 0) as [->|Hbnz].
  { rewrite Z.add_0_r.
    destruct (float_lit_finite a Hanz Ha) as (m & e & -> & _). reflexivity. }
  destruct (float_lit_finite a Hanz Ha) as (ma & ea & Efa & Hea & Hma & _).
  destruct (float_lit_finite b Hbnz Hb) as (mb & eb & Efb & Heb & Hmb & _).
  rewrite Efa, Efb. cbn [SFadd].
  rewrite (aligned_mantissa a ma ea (Z.min ea eb) Hma) by lia.
  rewrite (aligned_mantissa b mb eb (Z.min ea eb) Hmb) by lia.
  rewrite <- Z.mul_add_distr_r.
  replace (Z.min ea eb) with (- - Z.min ea eb) at 2 by lia.
  apply binary_normalize_scaled; [lia|assumption].
Qed.

(** Subtracting likewise. *)
Lemma SFsub_exact (a b : Z) :
  Z.abs a < 2 ^ 53 -> Z.abs b < 2 ^ 53 -> Z.abs (a - b) < 2 ^ 53 ->
  SFsub prec emax (float_lit a) (float_lit b) = float_lit (a - b).
Proof.
  intros Ha Hb Hab.
  destruct (Z.eq_dec b 0) as [->|Hbnz].
  { rewrite Z.sub_0_r. destruct (Z.eq_dec a 0) as [->|Hanz]; [reflexivity|].
    destruct (float_lit_finite a Hanz Ha) as (m & e & -> & _). reflexivity. }
  destruct (float_lit_finite b Hbnz Hb) as (mb & eb & Efb & Heb & Hmb & Hdb).
  destruct (Z.eq_dec a 0) as [->|Hanz].
  { rewrite Efb. cbn [float_lit binary_normalize SFsub Z.sub Z.add].
    destruct (float_lit_finite (- b)) as (m' & e' & Ef' & He' & Hm' & Hd');
      [lia|lia|].
    change (binary_normalize prec emax (- b) 0 false) with (float_lit (- b)).
    rewrite Ef'.
    assert (e' = eb).
    { pose proof (digits2_pos_lower m'). pose proof (digits2_pos_upper m').
      pose proof (digits2_pos_lower mb). pose proof (digits2_pos_upper mb).
      rewrite Hd' in *. rewrite Hdb in *. rewrite Z.abs_opp in Hm'.
      destruct (Z.lt_trichotomy e' eb) as [Hlt|[Heq|Hlt]]; [|assumption|]; exfalso.
      - assert (Zpos m' = Zpos mb * 2 ^ (eb - e')).
        { rewrite Hm', Hmb, <- Z.mul_assoc, <- Z.pow_add_r by lia.
          f_equal. f_equal. lia. }
        assert (2 <= 2 ^ (eb - e')).
        { change 2 with (2 ^ 1) at 1. apply Z.pow_le_mono_r; lia. }
        nia.
      - assert (Zpos mb = Zpos m' * 2 ^ (e' - eb)).
        { rewrite Hm', Hmb, <- Z.mul_assoc, <- Z.pow_add_r by lia.
          f_equal. f_equal. lia. }
        assert (2 <= 2 ^ (e' - eb)).
        { change 2 with (2 ^ 1) at 1. apply Z.pow_le_mono_r; lia. }
        nia. }
    subst e'. f_equal.
    - destruct (Z.ltb_spec b 0), (Z.ltb_spec (- b) 0); try reflexivity; lia.
    - apply Pos2Z.inj. rewrite Hm', Hmb, Z.abs_opp. reflexivity. }
  destruct (float_lit_finite a Hanz Ha) as (ma & ea & -> & Hea & Hma & _).
  rewrite Efb. cbn [SFsub].
  rewrite (aligned_mantissa a ma ea (Z.min ea eb) Hma) by lia.
  rewrite (aligned_mantissa b mb eb (Z.min ea eb) Hmb) by lia.
  rewrite <- Z.mul_sub_distr_r.
  replace (Z.min ea eb) with (- - Z.min ea eb) at 2 by lia.
  apply binary_normalize_scaled; [lia|assumption].
Qed.




(** ** Showing records *)

Lemma average_grade_float_graded (s : Student.t) :
  float_graded s ->
  match Student.grades s with
  | [] => Student.average_grade s = Ok (PyInt 0)
  | _ :: _ => exists q, Student.average_grade s = Ok (PyFloat q)
  end.
Proof.
  intros (fs & Hfs & Hlen). destruct s as [o n a gs]. cbn in Hfs. subst gs.
  destruct fs as [|f fs]; [reflexivity|]. cbn [map Student.grades].
  change (PyFloat f :: map PyFloat fs) with (map PyFloat (f :: fs)).
  rewrite average_grade_floats.
  destruct (float_of_int_small (Z.of_nat (List.length (f :: fs)))) as (m & e & ->).
  { split; [cbn [List.length]; lia|exact Hlen]. }
  cbn [rbind]. unfold Py.float_div. cbn [Py.is_zero]. eauto.
Qed.

Lemma average_grade_float_graded_Ok (s : Student.t) :
  float_graded s -> exists average, Student.average_grade s = Ok average.
Proof.
  intros H. apply average_grade_float_graded in H.
  destruct (Student.grades s); [eauto|]. destruct H as [q ->]. eauto.
Qed.

(** The line that [display] prints for a record. *)
Lemma display_float_graded {S : Type} (s : Student.t) (st : S) :
  float_graded s ->
  exists average,
    Student.average_grade s = Ok average /\
    Student.display s st =
      ([Display (Student.name s) (Student.age s) (Student.grades s) average],
       st, Ok tt).
Proof.
  intros H. destruct (average_grade_float_graded_Ok s H) as [average Ha].
  exists average. split; [assumption|]. now rewrite display_run, Ha.
Qed.

Lemma for_each_display_lines {S : Type} (l : list Student.t) (st : S) :
  Forall float_graded l ->
  exists lines,
    for_each l Student.display st = (lines, st, Ok tt) /\
    Forall2 (fun s ln =>
               exists average,
                 Student.average_grade s = Ok average /\
                 ln = Display (Student.name s) (Student.age s)
                        (Student.grades s) average) l lines.
Proof.
  induction 1 as [|s l Hs _ (lines & Hrun & Hlines)].
  - exists []. split; [reflexivity|constructor].
  - destruct (display_float_graded s st Hs) as (average & Ha & Hd).
    exists (Display (Student.name s) (Student.age s) (Student.grades s) average
            :: lines).
    split.
    + cbn [for_each]. unfold bind. now rewrite Hd, Hrun.
    + constructor; [eauto|assumption].
Qed.

(** ** The average of float grades *)


Lemma fold_right_add_nonneg (zs : list Z) :
  Forall (fun z => 0 <= z) zs -> 0 <= fold_right Z.add 0 zs.
Proof. induction 1; cbn [fold_right]; lia. Qed.

(** The sum of the floats of non-negative integers is the float of their
    sum, as long as that is below 2^53: no addition rounds. *)
Lemma sum_from_exact (acc : Z) (zs : list Z) :
  0 <= acc -> Forall (fun z => 0 <= z) zs ->
  acc + fold_right Z.add 0 zs < 2 ^ 53 ->
  Py.sum_from (PyFloat (float_lit acc)) (map (fun z => PyFloat (float_lit z)) zs) =
    Ok (PyFloat (float_lit (acc + fold_right Z.add 0 zs))).
Proof.
  intros Hacc Hzs. revert acc Hacc.
  induction Hzs as [|z zs Hz Hzs IH]; intros acc Hacc Hlt; cbn [map fold_right].
  - now rewrite Z.add_0_r.
  - pose proof (fold_right_add_nonneg zs Hzs) as Hnn.
    cbn [fold_right] in Hlt. cbn [Py.sum_from Py.add as_int rbind].
    rewrite SFadd_exact by lia.
    rewrite IH by lia. now rewrite Z.add_assoc.
Qed.

Lemma sum_exact (zs : list Z) :
  zs <> [] -> Forall (fun z => 0 <= z) zs ->
  fold_right Z.add 0 zs < 2 ^ 53 ->
  Py.sum (map (fun z => PyFloat (float_lit z)) zs) =
    Ok (PyFloat (float_lit (fold_right Z.add 0 zs))).
Proof.
  intros Hne Hzs Hlt. destruct zs as [|z zs]; [congruence|].
  inversion Hzs as [|? ? Hz Hzs']; subst.
  pose proof (fold_right_add_nonneg zs Hzs') as Hnn. cbn [fold_right] in *.
  unfold Py.sum. cbn [map Py.sum_from].
  change (Py.add (PyInt 0) (PyFloat (float_lit z)))
    with (Ok (PyFloat (SFadd prec emax (float_lit 0) (float_lit z)))).
  cbn [rbind]. rewrite SFadd_exact by lia. rewrite Z.add_0_l.
  apply sum_from_exact; assumption.
Qed.

Lemma sum_compensated_from_exact (acc : Z) (zs : list Z) :
  0 <= acc -> Forall (fun z => 0 <= z) zs ->
  acc + fold_right Z.add 0 zs < 2 ^ 53 ->
  Py.sum_compensated_from (float_lit acc) (float_lit 0) (map float_lit zs) =
    float_lit (acc + fold_right Z.add 0 zs).
Proof.
  intros Hacc Hzs. revert acc Hacc.
  induction Hzs as [|z zs Hz Hzs IH]; intros acc Hacc Hlt; cbn [map fold_right].
  - now rewrite Z.add_0_r.
  - pose proof (fold_right_add_nonneg zs Hzs) as Hnn.
    cbn [fold_right] in Hlt. cbn [Py.sum_compensated_from].
    rewrite (SFadd_exact acc z) by lia.
    assert (Hc : (if SFleb (SFabs (float_lit z)) (SFabs (float_lit acc))
                  then SFadd prec emax (float_lit 0)
                         (SFadd prec emax
                            (SFsub prec emax (float_lit acc) (float_lit (acc + z)))
                            (float_lit z))
                  else SFadd prec emax (float_lit 0)
                         (SFadd prec emax
                            (SFsub prec emax (float_lit z) (float_lit (acc + z)))
                            (float_lit acc))) = float_lit 0).
    { destruct (SFleb (SFabs (float_lit z)) (SFabs (float_lit acc)));
        rewrite SFsub_exact by lia.
      - replace (acc - (acc + z)) with (- z) by lia.
        rewrite (SFadd_exact (- z) z) by lia.
        replace (- z + z) with 0 by lia. reflexivity.
      - replace (z - (acc + z)) with (- acc) by lia.
        rewrite (SFadd_exact (- acc) acc) by lia.
        replace (- acc + acc) with 0 by lia. reflexivity. }
    rewrite Hc, IH by lia. now rewrite Z.add_assoc.
Qed.

(** On the floats of non-negative integers with a sum below 2^53 the plain
    and the compensated summation return the same, the float of the sum. *)
Lemma sum_compensated_agrees (zs : list Z) :
  Forall (fun z => 0 <= z) zs ->
  fold_right Z.add 0 zs < 2 ^ 53 ->
  Py.sum (map (fun z => PyFloat (float_lit z)) zs) =
    Ok (Py.sum_compensated (map float_lit zs)).
Proof.
  intros Hzs Hlt. destruct zs as [|z zs]; [reflexivity|].
  rewrite sum_exact by (try assumption; congruence).
  inversion Hzs as [|? ? Hz Hzs']; subst.
  pose proof (fold_right_add_nonneg zs Hzs') as Hnn. cbn [fold_right] in *.
  cbn [map Py.sum_compensated].
  change (S754_zero false) with (float_lit 0).
  rewrite (SFadd_exact 0 z) by lia. rewrite Z.add_0_l.
  now rewrite sum_compensated_from_exact.
Qed.


(** X13.  For a record whose grades are floats, fewer than 2^53 of them,
    [average_grade] raises nothing, in particular no division by zero and
    no overflow of the count: without grades it is the integer 0, and
    otherwise it is a float. *)
Theorem average_grade_of_float_grades (s : Student.t) (fs : list float) :
  Student.grades s = map PyFloat fs ->
  Z.of_nat (List.length fs) < 2 ^ 53 ->
  match fs with
  | [] => Student.average_grade s = Ok (PyInt 0)
  | _ :: _ => exists q, Student.average_grade s = Ok (PyFloat q)
  end.
Proof.
  intros Hfs Hlen.
  assert (H : float_graded s) by (now exists fs).
  apply average_grade_float_graded in H. rewrite Hfs in H.
  now destruct fs.
Qed.

(** C8.  When the age entered is positive and every grade entered lies in
    [0, 100], the constructor returns a new record with the values entered,
    and [add_student] appends that record at the end of the list and
    reports it.  When the records of the list have float grades, as all
    records that the program stores have, [list_students] then prints the
    lines of the earlier records in their order followed by the line of the
    new record.  On a list without records, [list_students] prints a notice
    and shows no record; nothing is raised. *)
Theorem add_student_appends (name : string) (age : Z) (grades : list float)
    (st : state) :
  0 < age ->
  Forall score_valid (map PyFloat grades) ->
  let student :=
    Student.mk (next_oid st) name (PyInt age) (map PyFloat grades) in
  let st' := mkState (students st ++ [student]) (S (next_oid st)) in
  new_Student name (PyInt age) (map PyFloat grades) st =
    ([], mkState (students st) (S (next_oid st)), Ok student) /\
  add_student name (Ok age) (Ok grades) st =
    ([Text ("Student '" ++ name ++ "' added.")], st', Ok tt) /\
  (Forall float_graded (students st) ->
   Z.of_nat (List.length grades) < 2 ^ 53 ->
   exists lines average,
     Forall2 (fun s ln =>
                exists a,
                  Student.average_grade s = Ok a /\
                  ln = Display (Student.name s) (Student.age s)
                         (Student.grades s) a)
       (students st) lines /\
     Student.average_grade student = Ok average /\
     list_students st' =
       (lines ++ [Display name (PyInt age) (map PyFloat grades) average],
        st', Ok tt)) /\
  (forall n : nat,
      list_students (mkState [] n) =
        ([Text "No students in the system."], mkState [] n, Ok tt)).
Proof.
  intros Hage Hgrades student st'.
  assert (Hinit : Student.init (next_oid st) name (PyInt age) (map PyFloat grades)
                  = Ok student).
  { apply init_Ok_iff. repeat split; [|assumption].
    exists age. split; [reflexivity|assumption]. }
  split; [|split; [|split]].
  - rewrite new_Student_run, Hinit. reflexivity.
  - exact (add_student_accepted _ _ _ _ _ Hinit).
  - intros Hfg Hlen.
    destruct (for_each_display_lines (students st) st' Hfg) as (lines & Hrun & Hl).
    assert (Hs : float_graded student) by (now exists grades).
    destruct (display_float_graded student st' Hs) as (average & Ha & Hd).
    exists lines, average. repeat split; try assumption.
    rewrite list_students_nonempty.
    + cbn [students st'].
      rewrite (for_each_snoc (students st) student Student.display).
      unfold bind. now rewrite Hrun, Hd.
    + cbn. now destruct (students st).
  - reflexivity.
Qed.

(** ** The constructor, case by case *)

(** X1.  [__init__] ends in exactly one of three ways, decided by the
    invariant of a record: with an age that is not a positive integer it
    raises the error about the age, whatever the grades are; with a valid
    age and a grade that is not a number in [0, 100] it raises the error
    about the grades; otherwise it returns the record with the values
    given. *)
Theorem init_outcome (self : nat) (name : string) (age : pyval)
    (grades : list pyval) :
  (~ age_valid age /\
   Student.init self name age grades =
     Raise (ValueError "Age must be a positive integer.")) \/
  (age_valid age /\ ~ Forall score_valid grades /\
   Student.init self name age grades =
     Raise (ValueError "Grades must be numbers between 0 and 100.")) \/
  (age_valid age /\ Forall score_valid grades /\
   Student.init self name age grades = Ok (Student.mk self name age grades)).
Proof.
  assert (Hall : Py.all Student.grade_ok grades = Ok true <->
                 Forall score_valid grades).
  { rewrite all_true_iff. split; apply Forall_impl; intro; apply grade_ok_true_iff. }
  destruct (init_cases self name age grades)
    as [[Ha H]|[(Ha & Hg & H)|(Ha & Hg & H)]].
  - left. split; [|exact H]. rewrite <- age_bad_false_iff. congruence.
  - right; left. apply age_bad_false_iff in Ha. repeat split; try assumption.
    rewrite <- Hall. congruence.
  - right; right. apply age_bad_false_iff in Ha. apply Hall in Hg. auto.
Qed.

(** X4.  A grade that is not a number (NaN) is refused like a grade out
    of range: with a positive age, [add_student] reports the error about
    the grades and changes nothing. *)
Theorem add_student_rejects_nan (name : string) (age : Z) (grades : list float)
    (st : state) :
  0 < age -> In S754_nan grades ->
  add_student name (Ok age) (Ok grades) st =
    ([Text "Error: Grades must be numbers between 0 and 100."], st, Ok tt).
Proof.
  intros Hage Hin.
  apply (add_student_rejected name age grades st
           "Grades must be numbers between 0 and 100.").
  assert (Hall : Py.all Student.grade_ok (map PyFloat grades) = Ok false).
  { apply (all_false_of_In _ _ (PyFloat S754_nan) grade_ok_total).
    - now apply (in_map PyFloat) in Hin.
    - reflexivity. }
  destruct (init_cases (next_oid st) name (PyInt age) (map PyFloat grades))
    as [[Ha _]|[(_ & _ & H)|(_ & Hg & _)]]; [|exact H|congruence].
  rewrite age_bad_int in Ha. injection Ha as Ha. apply Z.leb_le in Ha. lia.
Qed.

(** ** Removing from the list *)

Lemma find_in_In (lower : string -> string) (l : list Student.t)
    (name : string) (s : Student.t) :
  find_in lower l name = Some s -> In s l.
Proof.
  intros H. destruct (find_in_Some lower _ _ _ H) as (before & after & -> & _).
  apply in_or_app. right. now left.
Qed.

(** [remove] succeeds for an object of the list. *)
Lemma remove_object_In (s : Student.t) (l : list Student.t) :
  In s l ->
  exists before y after,
    l = before ++ y :: after /\
    Student.oid y = Student.oid s /\
    remove_object s l = Some (before ++ after).
Proof.
  induction l as [|x l IH]; [intros []|]. intros Hin. cbn [remove_object].
  destruct (Nat.eqb (Student.oid x) (Student.oid s)) eqn:E.
  - apply Nat.eqb_eq in E. now exists [], x, l.
  - destruct Hin as [->|Hin]; [now rewrite Nat.eqb_refl in E|].
    destruct (IH Hin) as (before & y & after & -> & Hy & ->).
    now exists (x :: before), y, after.
Qed.

Section MoreEffects.

Variable lower : string -> string.

#[local] Arguments update_object : simpl never.

(** X7.  [delete_student] never raises: the [remove] that follows a
    successful lookup always finds its object.  It prints one line, and it
    takes exactly one record out of the list when the name matches and
    none otherwise. *)
Theorem delete_student_removes_one (name : string) (st : state) :
  match find_in lower (students st) name with
  | None =>
      delete_student lower name st = ([Text "Student not found."], st, Ok tt)
  | Some s =>
      exists before y after,
        students st = before ++ y :: after /\
        Student.oid y = Student.oid s /\
        delete_student lower name st =
          ([Text ("Student '" ++ name ++ "' deleted.")],
           set_students (before ++ after) st, Ok tt)
  end.
Proof.
  unfold delete_student, bind. rewrite find_student_run.
  destruct (find_in lower (students st) name) as [s|] eqn:E; [|reflexivity].
  destruct (remove_object_In s (students st) (find_in_In lower _ _ _ E))
    as (before & y & after & Hl & Hy & Hr).
  exists before, y, after. repeat split; try assumption.
  unfold students_remove, print. now rewrite Hr.
Qed.

Lemma map_name_update_object (self : Student.t) (f : Student.t -> Student.t)
    (l : list Student.t) :
  (forall x, Student.name (f x) = Student.name x) ->
  map Student.name (update_object self f l) = map Student.name l.
Proof.
  intros Hf. unfold update_object. rewrite map_map. apply map_ext.
  intros x. destruct (Nat.eqb (Student.oid x) (Student.oid self)); auto.
Qed.

(** X6.  Whatever is entered, [update_student] keeps the records of the
    list: after it the list holds the same objects with the same names in
    the same order, so it never adds, removes, renames or moves a record. *)
Theorem update_student_keeps_records (name : string) (age_in : result Z)
    (grades_in : result (list float)) (st : state) :
  exists l,
    snd (fst (update_student lower name age_in grades_in st)) = set_students l st /\
    map Student.oid l = map Student.oid (students st) /\
    map Student.name l = map Student.name (students st).
Proof.
  unfold update_student. rewrite bind_state, find_student_run.
  destruct (find_in lower (students st) name) as [s|].
  2:{ exists (students st). now rewrite set_students_same. }
  destruct age_in as [age|e].
  2:{ exists (students st). rewrite set_students_same. now destruct e. }
  destruct grades_in as [grades|e].
  2:{ exists (students st). rewrite set_students_same. now destruct e. }
  eexists. split; [reflexivity|]. cbn [students set_students].
  now rewrite !map_oid_update_object, !map_name_update_object.
Qed.

Lemma find_in_app (l l' : list Student.t) (name : string) :
  find_in lower (l ++ l') name =
    match find_in lower l name with
    | Some s => Some s
    | None => find_in lower l' name
    end.
Proof.
  induction l as [|x l IH]; [reflexivity|]. cbn [app find_in].
  now destruct (String.eqb (lower (Student.name x)) (lower name)).
Qed.

(** X8.  After a student has been added, a lookup returns the earlier
    record that matches the name looked up, if there is one, and otherwise
    the new record when its name matches: a record added under a name that
    is already in the list is not found by name while the earlier one is
    there. *)
Theorem find_after_add (name : string) (age : Z) (grades : list float)
    (st : state) (name' : string) :
  0 < age ->
  Forall score_valid (map PyFloat grades) ->
  let st' := snd (fst (add_student name (Ok age) (Ok grades) st)) in
  find_student lower name' st' =
    ([], st',
     Ok match find_in lower (students st) name' with
        | Some s => Some s
        | None =>
            if String.eqb (lower name) (lower name') then
              Some (Student.mk (next_oid st) name (PyInt age) (map PyFloat grades))
            else None
        end).
Proof.
  intros Hage Hg st'.
  assert (Hinit : Student.init (next_oid st) name (PyInt age) (map PyFloat grades)
                  = Ok (Student.mk (next_oid st) name (PyInt age)
                          (map PyFloat grades))).
  { apply init_Ok_iff. repeat split; [|assumption]. now exists age. }
  subst st'. rewrite (add_student_accepted _ _ _ _ _ Hinit).
  cbn [fst snd]. rewrite find_student_run. cbn [students].
  now rewrite find_in_app.
Qed.

(** X9.  In a well-formed state without a record of that name, adding a
    student and then deleting by the same name gives back the list as it
    was. *)
Theorem add_then_delete_restores (name : string) (age : Z) (grades : list float)
    (st : state) :
  store_wf st ->
  Forall (fun x => lower (Student.name x) <> lower name) (students st) ->
  0 < age ->
  Forall score_valid (map PyFloat grades) ->
  let st' := snd (fst (add_student name (Ok age) (Ok grades) st)) in
  delete_student lower name st' =
    ([Text ("Student '" ++ name ++ "' deleted.")],
     mkState (students st) (S (next_oid st)), Ok tt).
Proof.
  intros [_ Hlt] Hno Hage Hg st'.
  set (new := Student.mk (next_oid st) name (PyInt age) (map PyFloat grades)).
  assert (Hinit : Student.init (next_oid st) name (PyInt age) (map PyFloat grades)
                  = Ok new).
  { apply init_Ok_iff. repeat split; [|assumption]. now exists age. }
  subst st'. rewrite (add_student_accepted _ _ _ _ _ Hinit). cbn [fst snd].
  unfold delete_student, bind. rewrite find_student_run. cbn [students].
  rewrite find_in_app.
  replace (find_in lower (students st) name) with (@None Student.t)
    by (symmetry; now apply find_in_None).
  cbn [find_in Student.name new]. rewrite String.eqb_refl.
  unfold students_remove, print. cbn [students].
  rewrite (remove_object_split new (students st) []).
  - now rewrite app_nil_r.
  - eapply Forall_impl; [|exact Hlt]. cbn. intros x Hx. lia.
Qed.

Lemma find_in_same_lower (l : list Student.t) (name name' : string) :
  lower name = lower name' -> find_in lower l name = find_in lower l name'.
Proof.
  intros H. induction l as [|x l IH]; [reflexivity|].
  cbn [find_in]. now rewrite H, IH.
Qed.

(** X10.  Names that are equal after case folding are the same name for
    the program: a lookup returns the same record for both, a view prints
    the same, and an update or a deletion under either leaves the same
    state. *)
Theorem lookup_ignores_case (name name' : string) (st : state) :
  lower name = lower name' ->
  find_student lower name st = find_student lower name' st /\
  view_student lower name st = view_student lower name' st /\
  snd (fst (delete_student lower name st)) =
    snd (fst (delete_student lower name' st)) /\
  (forall age_in grades_in,
      snd (fst (update_student lower name age_in grades_in st)) =
        snd (fst (update_student lower name' age_in grades_in st))).
Proof.
  intros H. pose proof (find_in_same_lower (students st) name name' H) as Hf.
  repeat split.
  - now rewrite !find_student_run, Hf.
  - unfold view_student, bind. now rewrite !find_student_run, Hf.
  - unfold delete_student. rewrite !bind_state, !find_student_run, Hf.
    destruct (find_in lower (students st) name'); [|reflexivity].
    now rewrite !bind_state.
  - intros age_in grades_in.
    unfold update_student. rewrite !bind_state, !find_student_run, Hf.
    destruct (find_in lower (students st) name'); [|reflexivity].
    destruct age_in as [age|[]]; try reflexivity.
    destruct grades_in as [grades|[]]; reflexivity.
Qed.

End MoreEffects.

(** ** Showing the records that the program stores *)


Section Showing.

Variable lower : string -> string.

#[local] Arguments update_object : simpl never.

(** X14.  When the records of the list have float grades and one of them
    matches the name, [view_student] prints one line, the one of the first
    matching record with its name, age, grades and average; it raises
    nothing and leaves the state as it is. *)
Theorem view_student_shows_first_match (name : string) (st : state) :
  Forall float_graded (students st) ->
  Exists (fun x => lower (Student.name x) = lower name) (students st) ->
  exists before s after average,
    students st = before ++ s :: after /\
    lower (Student.name s) = lower name /\
    Forall (fun x => lower (Student.name x) <> lower name) before /\
    Student.average_grade s = Ok average /\
    view_student lower name st =
      ([Display (Student.name s) (Student.age s) (Student.grades s) average],
       st, Ok tt).
Proof.
  intros Hfg Hex.
  destruct (find_in_Exists lower _ _ Hex) as [s Hs].
  destruct (find_in_Some lower _ _ _ Hs) as (before & after & Hl & Hm & Hb).
  assert (Hin : In s (students st)) by exact (find_in_In lower _ _ _ Hs).
  rewrite Forall_forall in Hfg.
  destruct (display_float_graded s st (Hfg s Hin)) as (average & Ha & Hd).
  exists before, s, after, average. repeat split; try assumption.
  unfold view_student, bind. now rewrite find_student_run, Hs, Hd.
Qed.

(** X15.  When the list is not empty and its records have float grades,
    [list_students] prints exactly one line for each record, in the order
    of the list, with the name, age, grades and average of the record; it
    raises nothing and leaves the state as it is. *)
Theorem list_students_one_line_per_record (st : state) :
  Forall float_graded (students st) ->
  students st <> [] ->
  exists lines,
    list_students st = (lines, st, Ok tt) /\
    Forall2 (fun s ln =>
               exists average,
                 Student.average_grade s = Ok average /\
                 ln = Display (Student.name s) (Student.age s)
                        (Student.grades s) average)
      (students st) lines.
Proof.
  intros Hfg Hne.
  destruct (for_each_display_lines (students st) st Hfg) as (lines & Hrun & Hl).
  exists lines. split; [|assumption].
  now rewrite (list_students_nonempty st Hne).
Qed.

Lemma Forall_update_object (P : Student.t -> Prop) (self : Student.t)
    (f : Student.t -> Student.t) (l : list Student.t) :
  (forall x, P x -> P (f x)) -> Forall P l -> Forall P (update_object self f l).
Proof.
  intros Hf Hl. unfold update_object. apply Forall_map.
  eapply Forall_impl; [|exact Hl]. cbn. intros x Hx.
  destruct (Nat.eqb (Student.oid x) (Student.oid self)); auto.
Qed.

Lemma float_graded_new (self : nat) (name : string) (age : pyval)
    (fs : list float) :
  Z.of_nat (List.length fs) < 2 ^ 53 ->
  float_graded (Student.mk self name age (map PyFloat fs)).
Proof. intros H. now exists fs. Qed.

(** A turn with well-formed entries ends without an exception and keeps
    the grades of the list floats. *)
Lemma run_choice_returns (c : command) (st : state) :
  entered_ok c = true ->
  Forall float_graded (students st) ->
  exists out st',
    run_choice lower c st = (out, st', Ok tt) /\
    Forall float_graded (students st').
Proof.
  intros Hc Hfg.
  destruct c as [name a g|name a g|name|name| |]; cbn [run_choice entered_ok] in *.
  - apply andb_prop in Hc as [Ha Hg].
    destruct a as [age|[m| | |]]; try discriminate.
    2:{ do 2 eexists. split; [reflexivity|assumption]. }
    destruct g as [fs|[m| | |]]; try discriminate.
    2:{ do 2 eexists. split; [reflexivity|assumption]. }
    cbn [grades_outcome] in Hg. apply Z.ltb_lt in Hg.
    destruct (Student.init (next_oid st) name (PyInt age) (map PyFloat fs))
      as [s|e] eqn:E.
    + rewrite (add_student_accepted _ _ _ _ _ E). do 2 eexists.
      split; [reflexivity|]. cbn [students].
      apply init_Ok_iff in E as (-> & _).
      apply Forall_app. split; [assumption|].
      constructor; [now apply float_graded_new|constructor].
    + destruct (init_raises_ValueError _ _ _ _ _ E) as [msg ->].
      rewrite (add_student_rejected _ _ _ _ _ E). do 2 eexists.
      split; [reflexivity|assumption].
  - apply andb_prop in Hc as [Ha Hg].
    unfold update_student, bind. rewrite find_student_run.
    destruct (find_in lower (students st) name) as [s|].
    2:{ do 2 eexists. split; [reflexivity|assumption]. }
    destruct a as [age|[m| | |]]; try discriminate.
    2:{ do 2 eexists. split; [reflexivity|assumption]. }
    destruct g as [fs|[m| | |]]; try discriminate.
    2:{ do 2 eexists. split; [reflexivity|assumption]. }
    cbn [grades_outcome] in Hg. apply Z.ltb_lt in Hg.
    do 2 eexists. split; [reflexivity|]. cbn [students set_students].
    apply Forall_update_object.
    + intros x _. destruct x as [o n a gs]. now apply float_graded_new.
    + apply Forall_update_object; [|assumption].
      intros x (gs & Hx & Hlen). now exists gs.
  - unfold delete_student, bind. rewrite find_student_run.
    destruct (find_in lower (students st) name) as [s|] eqn:E.
    2:{ do 2 eexists. split; [reflexivity|assumption]. }
    destruct (remove_object_In s (students st) (find_in_In lower _ _ _ E))
      as (before & y & after & Hl & _ & Hr).
    unfold students_remove, print. rewrite Hr.
    do 2 eexists. split; [reflexivity|]. cbn [students set_students].
    rewrite Hl in Hfg. apply Forall_app in Hfg as [Hb Ha].
    apply Forall_app. split; [assumption|now inversion Ha].
  - unfold view_student, bind. rewrite find_student_run.
    destruct (find_in lower (students st) name) as [s|] eqn:E.
    2:{ do 2 eexists. split; [reflexivity|assumption]. }
    assert (Hs : float_graded s).
    { rewrite Forall_forall in Hfg. apply Hfg. exact (find_in_In lower _ _ _ E). }
    destruct (display_float_graded s st Hs) as (average & _ & ->).
    do 2 eexists. split; [reflexivity|assumption].
  - destruct (for_each_display_lines (students st) st Hfg) as (lines & Hrun & _).
    destruct (students st) as [|s l] eqn:E.
    + unfold list_students, bind, get. rewrite E.
      do 2 eexists. split; [reflexivity|]. now rewrite E.
    + rewrite list_students_nonempty by congruence. rewrite E, Hrun.
      do 2 eexists. split; [reflexivity|]. now rewrite E.
  - do 2 eexists. split; [reflexivity|assumption].
Qed.

Lemma menu_returns (cmds : list command) (st : state) :
  forallb entered_ok cmds = true ->
  Forall float_graded (students st) ->
  exists out,
    menu lower cmds st =
      (out ++ [Text "Exiting..."], fold_left (turn lower) cmds st, Ok tt).
Proof.
  revert st. induction cmds as [|c cmds IH]; intros st Hok Hfg.
  - eexists. cbn [menu fold_left]. unfold bind, print_menu, print. cbn.
    change [Text EmptyString; Text "===== Student Records Menu =====";
            Text "1. Add Student"; Text "2. Update Student";
            Text "3. Delete Student"; Text "4. View Student";
            Text "5. List All Students"; Text "6. Exit"; Text "Exiting..."]
      with ([Text EmptyString; Text "===== Student Records Menu =====";
             Text "1. Add Student"; Text "2. Update Student";
             Text "3. Delete Student"; Text "4. View Student";
             Text "5. List All Students"; Text "6. Exit"] ++ [Text "Exiting..."]).
    reflexivity.
  - cbn [forallb] in Hok. apply andb_prop in Hok as [Hc Hcmds].
    destruct (run_choice_returns c st Hc Hfg) as (out1 & st1 & Hrun & Hfg1).
    destruct (IH st1 Hcmds Hfg1) as (out2 & Hmenu).
    destruct (print_menu_run st) as [out0 H0].
    exists (out0 ++ out1 ++ out2).
    cbn [menu fold_left]. unfold turn at 2. rewrite Hrun. cbn [fst snd].
    unfold bind. rewrite H0, Hrun, Hmenu.
    now rewrite <- !app_assoc.
Qed.

(** X16.  A session of the menu in which every entry is a value or a
    [ValueError] of the parsing, with fewer than 2^53 grades at a time,
    never ends with an exception: every error is caught and reported.  The
    last line printed is "Exiting...", and the state at the end is the one
    that the turns produce one after the other. *)
Theorem menu_never_raises (cmds : list command) :
  forallb entered_ok cmds = true ->
  exists out,
    menu lower cmds initial =
      (out ++ [Text "Exiting..."], fold_left (turn lower) cmds initial, Ok tt).
Proof.
  intros Hok. apply menu_returns; [assumption|constructor].
Qed.

End Showing.

(** ** What the operations leave alone *)

(** X17.  Viewing and listing only read: [view_student] and
    [list_students] leave the state as it is for every state and name,
    also when showing a record raises. *)
Theorem view_and_list_read_only (lower : string -> string) (name : string)
    (st : state) :
  snd (fst (view_student lower name st)) = st /\
  snd (fst (list_students st)) = st.
Proof.
  split; [apply view_student_state|apply list_students_state].
Qed.

(** X18.  Whatever is entered, [add_student] leaves the records of the
    list as they are and in their order: either nothing changes, or one
    record is appended at the end, and that record carries the name
    entered and is valid. *)
Theorem add_student_keeps_existing (name : string) (age_in : result Z)
    (grades_in : result (list float)) (st : state) :
  snd (fst (add_student name age_in grades_in st)) = st \/
  exists s,
    Student.name s = name /\ record_valid s /\
    students (snd (fst (add_student name age_in grades_in st))) =
      students st ++ [s].
Proof.
  destruct (add_student_state name age_in grades_in st)
    as (out & r & [H|(s & _ & Hn & Hv & H)]); rewrite H; [now left|].
  right. now exists s.
Qed.

(** ** Instances of the further properties *)

Lemma add_student_rejects_age_witness :
  -5 <= 0 /\
  add_student "Bob" (Ok (-5)) (Ok [float_lit 150]) store_ann =
    ([Text "Error: Age must be a positive integer."], store_ann, Ok tt).
Proof.
  assert (H : -5 <= 0) by lia.
  split; [exact H|].
  exact (add_student_rejects_age "Bob" (-5) [float_lit 150] store_ann H).
Defined.

Lemma add_student_rejects_grade_witness :
  0 < 20 /\
  In (float_lit 150) [float_lit 90; float_lit 150] /\
  score_out_of_range (PyFloat (float_lit 150)) /\
  add_student "Bob" (Ok 20) (Ok [float_lit 90; float_lit 150]) store_ann =
    ([Text "Error: Grades must be numbers between 0 and 100."], store_ann, Ok tt).
Proof.
  assert (Hage : 0 < 20) by lia.
  assert (Hin : In (float_lit 150) [float_lit 90; float_lit 150]).
  { right. left. reflexivity. }
  assert (Hout : score_out_of_range (PyFloat (float_lit 150))).
  { right. reflexivity. }
  split; [exact Hage|]. split; [exact Hin|]. split; [exact Hout|].
  exact (add_student_rejects_grade "Bob" 20 [float_lit 90; float_lit 150]
           store_ann (float_lit 150) Hage Hin Hout).
Defined.

Lemma add_student_rejects_nan_witness :
  0 < 20 /\
  In S754_nan [float_lit 90; S754_nan] /\
  add_student "Bob" (Ok 20) (Ok [float_lit 90; S754_nan]) store_ann =
    ([Text "Error: Grades must be numbers between 0 and 100."], store_ann, Ok tt).
Proof.
  assert (Hage : 0 < 20) by lia.
  assert (Hin : In S754_nan [float_lit 90; S754_nan]).
  { right. left. reflexivity. }
  split; [exact Hage|]. split; [exact Hin|].
  exact (add_student_rejects_nan "Bob" 20 [float_lit 90; S754_nan] store_ann
           Hage Hin).
Defined.

Lemma update_student_unparsed_witness :
  find_in ascii_lower (students store_ann) "ann" = Some ann /\
  update_student ascii_lower "ann" (Ok 21)
      (Raise (ValueError "could not convert string to float: 'A+'")) store_ann =
    ([Text "Error: could not convert string to float: 'A+'"], store_ann, Ok tt).
Proof.
  assert (Hs : find_in ascii_lower (students store_ann) "ann" = Some ann)
    by reflexivity.
  split; [exact Hs|].
  exact (update_student_unparsed ascii_lower "ann"
           "could not convert string to float: 'A+'" (Ok 21)
           (Raise (ValueError "could not convert string to float: 'A+'"))
           store_ann ann Hs
           (or_intror (conj (ex_intro _ 21 eq_refl) eq_refl))).
Defined.

Lemma find_after_add_witness :
  0 < 44 /\
  Forall score_valid (map PyFloat [float_lit 55]) /\
  find_student ascii_lower "ann"
      (snd (fst (add_student "ANN" (Ok 44) (Ok [float_lit 55]) store_ann))) =
    ([], snd (fst (add_student "ANN" (Ok 44) (Ok [float_lit 55]) store_ann)),
     Ok (Some ann)).
Proof.
  assert (Hage : 0 < 44) by lia.
  assert (Hg : Forall score_valid (map PyFloat [float_lit 55])).
  { repeat constructor. }
  split; [exact Hage|]. split; [exact Hg|].
  exact (find_after_add ascii_lower "ANN" 44 [float_lit 55] store_ann "ann"
           Hage Hg).
Defined.

Lemma add_then_delete_restores_witness :
  store_wf store_ann /\
  Forall (fun x => ascii_lower (Student.name x) <> ascii_lower "Bob")
    (students store_ann) /\
  0 < 31 /\
  Forall score_valid (map PyFloat [float_lit 70]) /\
  delete_student ascii_lower "Bob"
      (snd (fst (add_student "Bob" (Ok 31) (Ok [float_lit 70]) store_ann))) =
    ([Text "Student 'Bob' deleted."], mkState [ann] 2, Ok tt).
Proof.
  assert (Hwf : store_wf store_ann).
  { split; cbn; repeat constructor. intros []. }
  assert (Hno : Forall (fun x => ascii_lower (Student.name x) <> ascii_lower "Bob")
                  (students store_ann)) by no_match_by_evaluation.
  assert (Hage : 0 < 31) by lia.
  assert (Hg : Forall score_valid (map PyFloat [float_lit 70])).
  { repeat constructor. }
  split; [exact Hwf|]. split; [exact Hno|]. split; [exact Hage|].
  split; [exact Hg|].
  exact (add_then_delete_restores ascii_lower "Bob" 31 [float_lit 70] store_ann
           Hwf Hno Hage Hg).
Defined.

Lemma lookup_ignores_case_witness :
  ascii_lower "ANN" = ascii_lower "ann" /\
  find_student ascii_lower "ANN" store_ann_bob =
    find_student ascii_lower "ann" store_ann_bob.
Proof.
  assert (H : ascii_lower "ANN" = ascii_lower "ann") by reflexivity.
  split; [exact H|].
  exact (proj1 (lookup_ignores_case ascii_lower "ANN" "ann" store_ann_bob H)).
Defined.

Lemma valid_without_update_witness :
  forallb (fun c => negb (is_update c))
    [Choice1 "Ann" (Ok 20) (Ok [float_lit 90; float_lit 80]);
     Choice1 "Bob" (Ok 0) (Ok []); Choice3 "ann"; Choice5] = true /\
  Forall record_valid
    (students
       (state_after ascii_lower
          [Choice1 "Ann" (Ok 20) (Ok [float_lit 90; float_lit 80]);
           Choice1 "Bob" (Ok 0) (Ok []); Choice3 "ann"; Choice5])).
Proof.
  split; [reflexivity|].
  exact (valid_without_update ascii_lower
           [Choice1 "Ann" (Ok 20) (Ok [float_lit 90; float_lit 80]);
            Choice1 "Bob" (Ok 0) (Ok []); Choice3 "ann"; Choice5] eq_refl).
Defined.


Lemma float_graded_store_ann_bob : Forall float_graded (students store_ann_bob).
Proof.
  constructor; [|constructor; [|constructor]].
  - exists [float_lit 90; float_lit 80]. split; reflexivity.
  - exists [float_lit 70]. split; reflexivity.
Defined.

Lemma view_student_shows_first_match_witness :
  Forall float_graded (students store_ann_bob) /\
  Exists (fun x => ascii_lower (Student.name x) = ascii_lower "bob")
    (students store_ann_bob) /\
  exists before s after average,
    students store_ann_bob = before ++ s :: after /\
    ascii_lower (Student.name s) = ascii_lower "bob" /\
    Forall (fun x => ascii_lower (Student.name x) <> ascii_lower "bob") before /\
    Student.average_grade s = Ok average /\
    view_student ascii_lower "bob" store_ann_bob =
      ([Display (Student.name s) (Student.age s) (Student.grades s) average],
       store_ann_bob, Ok tt).
Proof.
  assert (He : Exists (fun x => ascii_lower (Student.name x) = ascii_lower "bob")
                 (students store_ann_bob)).
  { apply Exists_cons_tl, Exists_cons_hd. reflexivity. }
  split; [exact float_graded_store_ann_bob|]. split; [exact He|].
  exact (view_student_shows_first_match ascii_lower "bob" store_ann_bob
           float_graded_store_ann_bob He).
Defined.

Lemma list_students_one_line_per_record_witness :
  Forall float_graded (students store_ann_bob) /\
  students store_ann_bob <> [] /\
  exists lines,
    list_students store_ann_bob = (lines, store_ann_bob, Ok tt) /\
    Forall2 (fun s ln =>
               exists average,
                 Student.average_grade s = Ok average /\
                 ln = Display (Student.name s) (Student.age s)
                        (Student.grades s) average)
      (students store_ann_bob) lines.
Proof.
  assert (Hne : students store_ann_bob <> []) by discriminate.
  split; [exact float_graded_store_ann_bob|]. split; [exact Hne|].
  exact (list_students_one_line_per_record store_ann_bob
           float_graded_store_ann_bob Hne).
Defined.

Lemma menu_never_raises_witness :
  forallb entered_ok
    [Choice1 "Ann" (Ok 20) (Ok [float_lit 90; float_lit 80]);
     Choice2 "ann" (Raise (ValueError "invalid literal for int()")) (Ok []);
     Choice4 "ANN"; Choice3 "Zoe"; Choice5; ChoiceOther] = true /\
  exists out,
    menu ascii_lower
      [Choice1 "Ann" (Ok 20) (Ok [float_lit 90; float_lit 80]);
       Choice2 "ann" (Raise (ValueError "invalid literal for int()")) (Ok []);
       Choice4 "ANN"; Choice3 "Zoe"; Choice5; ChoiceOther] initial =
      (out ++ [Text "Exiting..."],
       fold_left (turn ascii_lower)
         [Choice1 "Ann" (Ok 20) (Ok [float_lit 90; float_lit 80]);
          Choice2 "ann" (Raise (ValueError "invalid literal for int()")) (Ok []);
          Choice4 "ANN"; Choice3 "Zoe"; Choice5; ChoiceOther] initial,
       Ok tt).
Proof.
  split; [reflexivity|].
  exact (menu_never_raises ascii_lower
           [Choice1 "Ann" (Ok 20) (Ok [float_lit 90; float_lit 80]);
            Choice2 "ann" (Raise (ValueError "invalid literal for int()")) (Ok []);
            Choice4 "ANN"; Choice3 "Zoe"; Choice5; ChoiceOther] eq_refl).
Defined.


Lemma float_graded_store_ann : Forall float_graded (students store_ann).
Proof.
  constructor; [|constructor].
  exists [float_lit 90; float_lit 80]. split; reflexivity.
Defined.

Lemma add_student_appends_witness :
  0 < 31 /\
  Forall score_valid (map PyFloat [float_lit 70]) /\
  add_student "Bob" (Ok 31) (Ok [float_lit 70]) store_ann =
    ([Text "Student 'Bob' added."], store_ann_bob, Ok tt) /\
  Forall float_graded (students store_ann) /\
  Z.of_nat (List.length [float_lit 70]) < 2 ^ 53 /\
  exists lines average,
    Forall2 (fun s ln =>
               exists a,
                 Student.average_grade s = Ok a /\
                 ln = Display (Student.name s) (Student.age s)
                        (Student.grades s) a)
      (students store_ann) lines /\
    Student.average_grade bob = Ok average /\
    list_students store_ann_bob =
      (lines ++ [Display "Bob" (PyInt 31) (map PyFloat [float_lit 70]) average],
       store_ann_bob, Ok tt).
Proof.
  assert (Hage : 0 < 31) by lia.
  assert (Hg : Forall score_valid (map PyFloat [float_lit 70])).
  { repeat constructor. }
  assert (Hlen : Z.of_nat (List.length [float_lit 70]) < 2 ^ 53) by reflexivity.
  split; [exact Hage|]. split; [exact Hg|].
  split; [exact (proj1 (proj2 (add_student_appends "Bob" 31 [float_lit 70]
                                  store_ann Hage Hg)))|].
  split; [exact float_graded_store_ann|]. split; [exact Hlen|].
  exact (proj1 (proj2 (proj2 (add_student_appends "Bob" 31 [float_lit 70]
                                store_ann Hage Hg)))
           float_graded_store_ann Hlen).
Defined.

Lemma average_grade_of_float_grades_witness :
  Student.grades ann = map PyFloat [float_lit 90; float_lit 80] /\
  Z.of_nat (List.length [float_lit 90; float_lit 80]) < 2 ^ 53 /\
  exists q, Student.average_grade ann = Ok (PyFloat q).
Proof.
  assert (Hlen : Z.of_nat (List.length [float_lit 90; float_lit 80]) < 2 ^ 53)
    by reflexivity.
  split; [reflexivity|]. split; [exact Hlen|].
  exact (average_grade_of_float_grades ann [float_lit 90; float_lit 80]
           eq_refl Hlen).
Defined.
